(** * sensord: session multiplexer and node base

    A shallow embedding of [sensord/sockethandler.cpp] (classes
    [SessionData] and [SocketHandler]) and of the inline virtual hooks of
    [sensord/nodebase.h], with the properties the design document states
    about them.

    Conventions.
    - C++ [int] and [long] values are integers in [Z]; arithmetic that the
      source performs in [long] or narrows to [int] is wrapped explicitly.
    - Member functions are computations in a state-and-fault monad over
      the pair (object, world).  The world holds everything outside the
      object: the clock behind [gettimeofday], the transport behind
      [QLocalSocket::write], the operating system behind
      [QLocalServer::listen] and [unlink], the log, and the set of
      released connection handles.
    - Undefined behaviour of the C++ source (dereferencing a null pointer
      or an end iterator, deleting twice) is a [Crash]. *)

From Stdlib Require Import ZArith String Ascii.
From Stdlib.Strings Require Import Byte.
From stdpp Require Import base gmap list sorting.

Local Open Scope Z_scope.

(** ** Machine integers *)

Definition INT_MAX : Z := 2147483647.
Definition INT_MIN : Z := -2147483648.

(** [<limits.h>] is a system header; the width of [long] is a property of
    the platform the daemon is built for. *)
Class Limits := { LONG_MAX : Z }.

Definition LP64 : Limits := {| LONG_MAX := 9223372036854775807 |}.
Definition ILP32 : Limits := {| LONG_MAX := 2147483647 |}.

(** Two's-complement reduction into [-(hi+1) .. hi]. *)
Definition wrap (hi z : Z) : Z :=
  (z + (hi + 1)) mod (2 * (hi + 1)) - (hi + 1).

Definition to_int (z : Z) : Z := wrap INT_MAX z.
Definition to_long `{Limits} (z : Z) : Z := wrap LONG_MAX z.

(** ** Byte arrays *)

(** [new char[n]]; the fresh array is modelled as zeroed. *)
Definition new_char (n : Z) : list byte := replicate (Z.to_nat n) x00.

(** [memcpy(dst, src, n)]: the first [n] bytes of [dst] become those of [src]. *)
Definition memcpy (dst src : list byte) (n : Z) : list byte :=
  take (Z.to_nat n) src ++ drop (Z.to_nat n) dst.

(** The four bytes of an [int] in memory, least significant first, and
    the [int] four bytes in memory stand for. *)
Definition byte_at (z : Z) (i : Z) : byte :=
  default x00 (Byte.of_N (Z.to_N ((z / 256 ^ i) mod 256))).

Definition int_to_bytes (z : Z) : list byte :=
  [byte_at z 0; byte_at z 1; byte_at z 2; byte_at z 3].

Definition int_of_bytes (bs : list byte) : Z :=
  to_int (foldr (fun b acc => Z.of_N (Byte.to_N b) + 256 * acc) 0 bs).

(** [sock->read((char* )&x, sizeof(int))] for an [int x] that held [init]:
    at most four of the bytes the socket has ready overwrite the start
    of [x]. *)
Definition read_into_int (init : Z) (avail : list byte) : Z :=
  int_of_bytes (memcpy (int_to_bytes init) avail (Z.min 4 (Z.of_nat (length avail)))).

(** ** Outcomes and the state-and-fault monad *)

Inductive fault : Type :=
| NullDereference          (* member call through a null pointer *)
| EndIteratorDereference   (* [*m.find(k)] with [k] absent *)
| DoubleDelete             (* [delete] of a handle already released *)
| AssertionFailed.         (* [Q_ASSERT(false)] in a debug build *)

Inductive outcome (S A : Type) : Type :=
| Done (a : A) (s : S)
| Crash (f : fault) (s : S).
Arguments Done {S A} a s.
Arguments Crash {S A} f s.

Definition M (S A : Type) : Type := S -> outcome S A.

Definition ret {S A} (a : A) : M S A := fun s => Done a s.

Definition bind {S A B} (m : M S A) (k : A -> M S B) : M S B :=
  fun s => match m s with
           | Done a s' => k a s'
           | Crash f s' => Crash f s'
           end.

Definition crash {S A} (f : fault) : M S A := fun s => Crash f s.

Declare Scope cxx_scope.
Delimit Scope cxx_scope with cxx.
Notation "x <- m ;; k" := (bind m (fun x => k))
  (at level 100, m at next level, right associativity) : cxx_scope.
Notation "m ;; k" := (bind m (fun _ => k))
  (at level 100, right associativity) : cxx_scope.

(** The value a computation returns, when it returns. *)
Definition returned {S A} (o : outcome S A) : option A :=
  match o with Done a _ => Some a | Crash _ _ => None end.

Definition final {S A} (o : outcome S A) : S :=
  match o with Done _ s => s | Crash _ s => s end.

(** ** The world outside the objects *)

(** A connection handle ([QLocalSocket*], non-null). *)
Definition Socket : Type := positive.

Record timeval : Type := mkTimeval { tv_sec : Z; tv_usec : Z }.

Inductive LogLevel : Type := LogT | LogD | LogW | LogC.

Record LogLine : Type := mkLog { level : LogLevel; text : string; number : option Z }.

Inductive SysCall : Type :=
| SysListen (name : string)      (* bind + listen of [QLocalServer::listen] *)
| SysUnlink (name : string).

Record World : Type := mkWorld {
  clock : nat -> timeval;          (* successive readings of [gettimeofday] *)
  clock_reads : nat;               (* readings taken so far *)
  transport : nat -> Z;            (* return value of the k-th [QLocalSocket::write] *)
  wire : list (Socket * list byte);(* physical writes, oldest first *)
  bind_ok : nat -> bool;           (* does the k-th system call, a bind, succeed *)
  unlink_rc : nat -> Z;            (* return code of the k-th system call, an unlink *)
  syscalls : list SysCall;         (* system calls issued, oldest first *)
  next_timer : positive;           (* next timer id the event dispatcher hands out *)
  released : list Socket;          (* connection handles deleted so far *)
  log : list LogLine;              (* lines logged, oldest first *)
  qt_debug : bool                  (* built without [QT_NO_DEBUG] *)
}.

Definition tick (w : World) : World :=
  mkWorld (clock w) (S (clock_reads w)) (transport w) (wire w) (bind_ok w)
          (unlink_rc w) (syscalls w) (next_timer w) (released w) (log w) (qt_debug w).

Definition sent (sk : Socket) (data : list byte) (w : World) : World :=
  mkWorld (clock w) (clock_reads w) (transport w) (wire w ++ [(sk, data)]) (bind_ok w)
          (unlink_rc w) (syscalls w) (next_timer w) (released w) (log w) (qt_debug w).

Definition called (c : SysCall) (w : World) : World :=
  mkWorld (clock w) (clock_reads w) (transport w) (wire w) (bind_ok w)
          (unlink_rc w) (syscalls w ++ [c]) (next_timer w) (released w) (log w) (qt_debug w).

Definition timer_taken (w : World) : World :=
  mkWorld (clock w) (clock_reads w) (transport w) (wire w) (bind_ok w)
          (unlink_rc w) (syscalls w) (Pos.succ (next_timer w)) (released w) (log w) (qt_debug w).

Definition freed (sk : Socket) (w : World) : World :=
  mkWorld (clock w) (clock_reads w) (transport w) (wire w) (bind_ok w)
          (unlink_rc w) (syscalls w) (next_timer w) (released w ++ [sk]) (log w) (qt_debug w).

Definition logged (l : LogLine) (w : World) : World :=
  mkWorld (clock w) (clock_reads w) (transport w) (wire w) (bind_ok w)
          (unlink_rc w) (syscalls w) (next_timer w) (released w) (log w ++ [l]) (qt_debug w).

(** The same world with another transport behind the sockets. *)
Definition with_transport (f : nat -> Z) (w : World) : World :=
  mkWorld (clock w) (clock_reads w) f (wire w) (bind_ok w)
          (unlink_rc w) (syscalls w) (next_timer w) (released w) (log w) (qt_debug w).

(** Computations on an object of type [T] placed in the world. *)
Definition Cxx (T A : Type) : Type := M (T * World) A.

Section Primitives.
Context {T : Type}.
Local Open Scope cxx_scope.

Definition this : Cxx T T := fun s => Done (fst s) s.
Definition assign (x : T) : Cxx T unit := fun s => Done tt (x, snd s).
Definition world : Cxx T World := fun s => Done (snd s) s.
Definition world_becomes (f : World -> World) : Cxx T unit :=
  fun s => Done tt (fst s, f (snd s)).

(** [gettimeofday(&tv, 0)] *)
Definition gettimeofday : Cxx T timeval :=
  w <- world ;;
  world_becomes tick ;;
  ret (clock w (clock_reads w)).

(** [sock->write(data, size)]: the number of bytes written, or -1. *)
Definition QLocalSocket_write (sock : option Socket) (data : list byte) : Cxx T Z :=
  match sock with
  | None => crash NullDereference
  | Some sk =>
      w <- world ;;
      world_becomes (sent sk data) ;;
      ret (transport w (length (wire w)))
  end.

(** [delete sock] *)
Definition delete_socket (sock : option Socket) : Cxx T unit :=
  match sock with
  | None => ret tt
  | Some sk =>
      w <- world ;;
      if bool_decide (sk ∈ released w) then crash DoubleDelete
      else world_becomes (freed sk)
  end.

Definition sensordLog (lv : LogLevel) (msg : string) (n : option Z) : Cxx T unit :=
  world_becomes (logged (mkLog lv msg n)).

Definition when (b : bool) (m : Cxx T unit) : Cxx T unit :=
  if b then m else ret tt.
End Primitives.

(** ** QTimer

    [QTimer] keeps the id of its running timer in an [int] that is -1
    while the timer is stopped; [timerId()] returns it. *)
Module QTimer.
Inductive t : Type :=
| Stopped
| Running (id : positive) (msec : Z).

Definition timerId (tm : t) : Z :=
  match tm with
  | Stopped => -1
  | Running id _ => Z.pos id
  end.

Definition isActive (tm : t) : bool :=
  match tm with Stopped => false | Running _ _ => true end.

Definition stop (tm : t) : t := Stopped.

(** [start(msec)] stops a running timer and starts a new one. *)
Definition start (id : positive) (msec : Z) (tm : t) : t := Running id msec.
End QTimer.

(** ** SessionData: one rate-limited channel *)
Module SessionData.
Local Open Scope cxx_scope.

Record t : Type := mk {
  socket : option Socket;        (* [QLocalSocket* socket], null after [stealSocket] *)
  interval : Z;                  (* [int interval], -1 when no limit is set *)
  buffer : option (list byte);   (* [char* buffer], null until first deferred write *)
  size : Z;                      (* [int size] *)
  lastWrite : timeval;
  timer : QTimer.t
}.

Definition with_socket (x : option Socket) (s : t) : t :=
  mk x (interval s) (buffer s) (size s) (lastWrite s) (timer s).
Definition with_interval (x : Z) (s : t) : t :=
  mk (socket s) x (buffer s) (size s) (lastWrite s) (timer s).
Definition with_buffer (x : option (list byte)) (s : t) : t :=
  mk (socket s) (interval s) x (size s) (lastWrite s) (timer s).
Definition with_size (x : Z) (s : t) : t :=
  mk (socket s) (interval s) (buffer s) x (lastWrite s) (timer s).
Definition with_lastWrite (x : timeval) (s : t) : t :=
  mk (socket s) (interval s) (buffer s) (size s) x (timer s).
Definition with_timer (x : QTimer.t) (s : t) : t :=
  mk (socket s) (interval s) (buffer s) (size s) (lastWrite s) x.

Definition update (f : t -> t) : Cxx t unit := s <- this ;; assign (f s).

(** [SessionData::SessionData(socket, parent)] *)
Definition new (sock : option Socket) : t :=
  mk sock (-1) None 0 (mkTimeval 0 0) QTimer.Stopped.

(** [timer.start(msec)] and [timer.stop()] on the member timer. *)
Definition timer_start (msec : Z) : Cxx t unit :=
  w <- world ;;
  world_becomes timer_taken ;;
  update (fun s => with_timer (QTimer.start (next_timer w) msec (timer s)) s).

Definition timer_stop : Cxx t unit :=
  update (fun s => with_timer (QTimer.stop (timer s)) s).

Section WithLimits.
Context `{Limits}.

(** [long SessionData::sinceLastWrite() const] *)
Definition sinceLastWrite : Cxx t Z :=
  s <- this ;;
  if tv_sec (lastWrite s) =? 0 then ret LONG_MAX
  else
    now <- gettimeofday ;;
    ret (to_long
           (to_long (to_long (tv_sec now - tv_sec (lastWrite s)) * 1000)
            + Z.quot (to_long (tv_usec now - tv_usec (lastWrite s))) 1000)).

(** [bool SessionData::write(const void* source, int size)], where
    [source] points to [size] bytes. *)
Definition write (source : list byte) : Cxx t bool :=
  let size' := Z.of_nat (length source) in
  s <- this ;;
  if interval s =? -1 then
    sensordLog LogT "[SocketHandler]: pass-through. interval not set" None ;;
    now <- gettimeofday ;;
    update (with_lastWrite now) ;;
    r <- QLocalSocket_write (socket s) source ;;
    ret (if r <? 0 then false else true)
  else
    since <- sinceLastWrite ;;
    if since >=? interval s then
      sensordLog LogT "[SocketHandler]: pass-through. since > interval" None ;;
      now <- gettimeofday ;;
      update (with_lastWrite now) ;;
      r <- QLocalSocket_write (socket s) source ;;
      ret (if r <? 0 then false else true)
    else
      update (fun s =>
                match buffer s with
                | None => with_buffer (Some (new_char size')) s
                | Some b =>
                    if negb (size' =? size s)
                    then with_buffer (Some (new_char size')) s
                    else s
                end) ;;
      update (with_size size') ;;
      update (fun s =>
                with_buffer (Some (memcpy (default [] (buffer s)) source size')) s) ;;
      s1 <- this ;;
      (if negb (QTimer.timerId (timer s1) =? -1) then
         sensordLog LogT "[SocketHandler]: delayed write by "
                    (Some (to_long (interval s - since))) ;;
         timer_start (to_int (to_long (interval s - since)))
       else
         sensordLog LogT "[SocketHandler]: timer already running" None) ;;
      ret true.
End WithLimits.

(** [void SessionData::delayedWrite()], the slot of the timer's
    [timeout()] signal. *)
Definition delayedWrite : Cxx t unit :=
  timer_stop ;;
  now <- gettimeofday ;;
  update (with_lastWrite now) ;;
  s <- this ;;
  _ <- QLocalSocket_write (socket s)
         (take (Z.to_nat (size s)) (default [] (buffer s))) ;;
  ret tt.

(** The event loop delivers [timeout()] only for a running timer. *)
Definition timeout : Cxx t unit :=
  s <- this ;;
  if QTimer.isActive (timer s) then delayedWrite else ret tt.

(** [QLocalSocket* SessionData::stealSocket()] *)
Definition stealSocket : Cxx t (option Socket) :=
  s <- this ;;
  let tmpsocket := socket s in
  update (with_socket None) ;;
  ret tmpsocket.

(** [void SessionData::setInterval(int interval)] *)
Definition setInterval (interval' : Z) : Cxx t unit :=
  update (with_interval interval').

Definition getSocket : Cxx t (option Socket) := s <- this ;; ret (socket s).

(** [SessionData::~SessionData()] *)
Definition destroy : Cxx t unit :=
  timer_stop ;;
  update (with_buffer None) ;;
  s <- this ;;
  delete_socket (socket s).

(** The pending buffer holds exactly [size] bytes whenever it exists. *)
Definition wf (s : t) : Prop :=
  match buffer s with
  | None => True
  | Some b => Z.of_nat (length b) = size s
  end.
End SessionData.

(** ** QLocalServer: the listening endpoint *)
Module QLocalServer.
Record t : Type := mk { listening : bool; name : string }.
Definition new : t := mk false "".
Definition isListening (srv : t) : bool := listening srv.
End QLocalServer.

(** ** SocketHandler: the session multiplexer *)
Module SocketHandler.
Local Open Scope cxx_scope.

Record t : Type := mk {
  m_server : QLocalServer.t;
  m_idMap : gmap Z SessionData.t;   (* [QMap<int, SessionData*>] *)
  m_tmpSocks : list Socket;         (* handles waiting for [killSocket()] *)
  readyRead : list Socket;          (* sockets whose [readyRead()] reaches [socketReadable()] *)
  disconnected : list Socket;       (* sockets whose [disconnected()] reaches [socketDisconnected()] *)
  killShots : nat                   (* single-shot timers pending for [killSocket()] *)
}.

Definition with_server (x : QLocalServer.t) (h : t) : t :=
  mk x (m_idMap h) (m_tmpSocks h) (readyRead h) (disconnected h) (killShots h).
Definition with_idMap (x : gmap Z SessionData.t) (h : t) : t :=
  mk (m_server h) x (m_tmpSocks h) (readyRead h) (disconnected h) (killShots h).
Definition with_tmpSocks (x : list Socket) (h : t) : t :=
  mk (m_server h) (m_idMap h) x (readyRead h) (disconnected h) (killShots h).
Definition with_readyRead (x : list Socket) (h : t) : t :=
  mk (m_server h) (m_idMap h) (m_tmpSocks h) x (disconnected h) (killShots h).
Definition with_disconnected (x : list Socket) (h : t) : t :=
  mk (m_server h) (m_idMap h) (m_tmpSocks h) (readyRead h) x (killShots h).
Definition with_killShots (x : nat) (h : t) : t :=
  mk (m_server h) (m_idMap h) (m_tmpSocks h) (readyRead h) (disconnected h) x.

Definition update (f : t -> t) : Cxx t unit := h <- this ;; assign (f h).

(** [SocketHandler::SocketHandler(parent)] *)
Definition new : t := mk QLocalServer.new ∅ [] [] [] 0%nat.

(** [disconnect(socket, SIGNAL(..), this, SLOT(..))] drops every such connection. *)
Definition unplug (sk : Socket) (l : list Socket) : list Socket :=
  filter (fun x => x ≠ sk) l.

(** [m.keys()], ascending, and [m.contains(k)]. *)
Definition keys (m : gmap Z SessionData.t) : list Z := (map_to_list m).*1.
Definition contains (m : gmap Z SessionData.t) (k : Z) : bool :=
  bool_decide (is_Some (m !! k)).

(** A member call through the dereferenced iterator of
    [m_idMap.find(id)], which is [end()] when [id] is absent. *)
Definition through_find {A} (id : Z) (f : Cxx SessionData.t A) : Cxx t A :=
  fun st =>
    let h := fst st in
    match m_idMap h !! id with
    | None => Crash EndIteratorDereference st
    | Some sd =>
        match f (sd, snd st) with
        | Done a (sd', w') => Done a (with_idMap (<[id := sd']> (m_idMap h)) h, w')
        | Crash e (sd', w') => Crash e (with_idMap (<[id := sd']> (m_idMap h)) h, w')
        end
    end.

(** [delete p] for [SessionData* p], null or not. *)
Definition delete_session (p : option SessionData.t) : Cxx t unit :=
  match p with
  | None => ret tt
  | Some sd =>
      fun st =>
        match SessionData.destroy (sd, snd st) with
        | Done a (_, w') => Done a (fst st, w')
        | Crash e (_, w') => Crash e (fst st, w')
        end
  end.

(** [m_server->listen(name)]: refused when already listening, else one
    bind attempt whose success makes the server listen. *)
Definition server_listen (name : string) : Cxx t bool :=
  h <- this ;;
  if QLocalServer.isListening (m_server h) then ret false
  else
    w <- world ;;
    world_becomes (called (SysListen name)) ;;
    let ok := bind_ok w (length (syscalls w)) in
    update (with_server (QLocalServer.mk ok name)) ;;
    ret ok.

(** [unlink(path)] *)
Definition unlink (path : string) : Cxx t Z :=
  w <- world ;;
  world_becomes (called (SysUnlink path)) ;;
  ret (unlink_rc w (length (syscalls w))).

(** [serverName[0] == QChar('/')]; index 0 of an empty [QString] reads
    as the null character. *)
Definition first_is_slash (serverName : string) : bool :=
  match serverName with
  | String c _ => Ascii.eqb c "/"
  | EmptyString => false
  end.

(** The [while] loop of [listen]; [None] when [fuel] iterations do not
    reach the exit. *)
Fixpoint listen_loop (fuel : nat) (serverName : string) (unlinkDone : bool)
  : Cxx t (option unit) :=
  match fuel with
  | O => ret None
  | S fuel' =>
      ok <- server_listen serverName ;;
      if negb ok && negb unlinkDone && first_is_slash serverName then
        rc <- unlink serverName ;;
        (if rc =? 0
         then sensordLog LogD "[SocketHandler]: Unlinked stale socket" None
         else sensordLog LogD "QLocalServer::errorString()" None) ;;
        listen_loop fuel' serverName true
      else ret (Some tt)
  end.

(** [bool SocketHandler::listen(QString serverName)] *)
Definition listen (fuel : nat) (serverName : string) : Cxx t (option bool) :=
  h <- this ;;
  if QLocalServer.isListening (m_server h) then
    sensordLog LogW "[SocketHandler]: Already listening" None ;;
    ret (Some false)
  else
    r <- listen_loop fuel serverName false ;;
    match r with
    | None => ret None
    | Some _ =>
        h' <- this ;;
        ret (Some (QLocalServer.isListening (m_server h')))
    end.

Section WithLimits.
Context `{Limits}.

(** [bool SocketHandler::write(int id, const void* source, int size)] *)
Definition write (id : Z) (source : list byte) : Cxx t bool :=
  h <- this ;;
  match m_idMap h !! id with
  | None =>
      sensordLog LogD
        "[SocketHandler]: Trying to write to nonexistent session (normal, no panic)."
        None ;;
      ret false
  | Some _ =>
      sensordLog LogT "[SocketHandler]: Writing to session " (Some id) ;;
      through_find id (SessionData.write source)
  end.
End WithLimits.

(** [bool SocketHandler::removeSession(int sessionId)] *)
Definition removeSession (sessionId : Z) : Cxx t bool :=
  h <- this ;;
  when (negb (bool_decide (sessionId ∈ keys (m_idMap h))))
       (sensordLog LogD "[SocketHandler]: Trying to remove nonexistent session." None) ;;
  socket <- through_find sessionId SessionData.stealSocket ;;
  (match socket with
   | Some sk =>
       update (fun h => with_readyRead (unplug sk (readyRead h)) h) ;;
       update (fun h => with_disconnected (unplug sk (disconnected h)) h) ;;
       update (fun h => with_tmpSocks (m_tmpSocks h ++ [sk]) h) ;;
       update (fun h => with_killShots (S (killShots h)) h)
   | None => ret tt
   end) ;;
  h1 <- this ;;
  let taken := m_idMap h1 !! sessionId in
  update (with_idMap (delete sessionId (m_idMap h1))) ;;
  delete_session taken ;;
  ret true.

(** [Q_ASSERT(cond)] *)
Definition Q_ASSERT (cond : bool) : Cxx t unit :=
  w <- world ;;
  if qt_debug w && negb cond then crash AssertionFailed else ret tt.

(** [void SocketHandler::socketReadable()], with [sender] the socket
    that signalled and [avail] the bytes it has ready. *)
Definition socketReadable (sender : Socket) (avail : list byte) : Cxx t unit :=
  let sessionId := read_into_int (-1) avail in
  update (fun h => with_readyRead (unplug sender (readyRead h)) h) ;;
  if 0 <=? sessionId then
    h <- this ;;
    when (negb (contains (m_idMap h) sessionId))
         (update (with_idMap
                    (<[sessionId := SessionData.new (Some sender)]> (m_idMap h))))
  else
    sensordLog LogC "[SocketHandler]: Failed to read valid session ID from client." None ;;
    Q_ASSERT false.

(** [void SocketHandler::killSocket()] *)
Definition killSocket : Cxx t unit :=
  h <- this ;;
  match m_tmpSocks h with
  | sk :: rest =>
      sensordLog LogT "[SocketHandler]: Deleting socket pointer:" (Some (Z.pos sk)) ;;
      update (with_tmpSocks rest) ;;
      delete_socket (Some sk)
  | [] =>
      sensordLog LogW
        "[SocketHandler]: Ugly hack just went bad.. attempting to delete nonexisting pointer."
        None
  end.

(** [void SocketHandler::setInterval(int sessionId, int value)] *)
Definition setInterval (sessionId value : Z) : Cxx t unit :=
  h <- this ;;
  match m_idMap h !! sessionId with
  | Some _ => through_find sessionId (SessionData.setInterval value)
  | None => ret tt
  end.

(** [void SocketHandler::clearInterval(int sessionId)] *)
Definition clearInterval (sessionId : Z) : Cxx t unit :=
  h <- this ;;
  match m_idMap h !! sessionId with
  | Some _ => update (with_idMap (delete sessionId (m_idMap h)))
  | None => ret tt
  end.

(** The 16 bytes [newConnection] writes: the characters of
    ["_SENSORCHANNEL_"] and the terminator of the literal. *)
Definition preamble : list byte := list_byte_of_string "_SENSORCHANNEL_" ++ [x00].

(** The [while] loop of [newConnection], over the connections
    [nextPendingConnection()] hands out while [hasPendingConnections()]
    holds.  The value [socket->write] returns is dropped; [flush()]
    leaves nothing to model, the bytes being on the wire already. *)
Fixpoint accept_pending (pending : list Socket) : Cxx t unit :=
  match pending with
  | [] => ret tt
  | socket :: pending' =>
      update (fun h => with_readyRead (readyRead h ++ [socket]) h) ;;
      update (fun h => with_disconnected (disconnected h ++ [socket]) h) ;;
      _ <- QLocalSocket_write (Some socket) preamble ;;
      accept_pending pending'
  end.

(** [void SocketHandler::newConnection()], with [pending] the
    connections waiting on the server. *)
Definition newConnection (pending : list Socket) : Cxx t unit :=
  sensordLog LogT "[SocketHandler]: New connection received." None ;;
  accept_pending pending.

(** The entries of the map in the order a [QMap] iterator visits them,
    by ascending key. *)
Definition key_le (a b : Z * SessionData.t) : Prop := a.1 <= b.1.

#[global] Instance key_le_dec (a b : Z * SessionData.t) : Decision (key_le a b) :=
  decide (a.1 <= b.1).

Definition entries (m : gmap Z SessionData.t) : list (Z * SessionData.t) :=
  merge_sort key_le (map_to_list m).

(** The [for] loop of [socketDisconnected]: the key of the last entry
    whose channel holds [socket], or the initial value. *)
Definition owner_scan (socket : Socket) (sessionId : Z)
           (l : list (Z * SessionData.t)) : Z :=
  foldl (fun acc kv =>
           if bool_decide (SessionData.socket kv.2 = Some socket) then kv.1 else acc)
        sessionId l.

(** [void SocketHandler::socketDisconnected()], with [sender] the socket
    that signalled.  The value returned is the argument of the
    [lostSession] signal when the signal is emitted. *)
Definition socketDisconnected (sender : Socket) : Cxx t (option Z) :=
  h <- this ;;
  let sessionId := owner_scan sender (-1) (entries (m_idMap h)) in
  if sessionId =? -1 then
    sensordLog LogW "[SocketHandler]: Noticed lost session, but can't find it." None ;;
    ret None
  else ret (Some sessionId).
End SocketHandler.

(** ** NodeBase: the inline hooks of [nodebase.h] *)
Module NodeBase.
Section Node.
(** [DataRange] and [DataRangeRequest] come from [datarange.h]. *)
Variables DataRange DataRangeRequest : Type.

(** A [NodeBase*], null or an index into the node arena. *)
Definition NodePtr : Type := option nat.

Record t : Type := mk {
  m_description : string;
  m_dataRangeList : list DataRange;
  m_dataRangeQueue : list DataRangeRequest;
  m_dataRangeSource : NodePtr;
  m_standbySourceList : list NodePtr;
  m_standbyRequestList : list Z
}.

(** [NodeBase(QObject* parent = 0)] *)
Definition new : t := mk "" [] [] None [] [].

(** [virtual bool setDataRange(const DataRange range, const int sessionId)] *)
Definition setDataRange (range : DataRange) (sessionId : Z) : Cxx t bool :=
  ret false.

(** [virtual bool setStandbyOverride(const bool override)] *)
Definition setStandbyOverride (override : bool) : Cxx t bool :=
  ret false.
End Node.
Arguments setDataRange {DataRange DataRangeRequest} range sessionId.
Arguments setStandbyOverride {DataRange DataRangeRequest} override.
End NodeBase.

(** ** Lives of a channel and of a multiplexer

    The calls the event loop and the sample producers make, run one
    after the other; a run stops at the first crash. *)
Module Life.
Local Open Scope cxx_scope.

Inductive channel_call : Type :=
| ChWrite (source : list byte)
| ChSetInterval (interval : Z)
| ChTimeout.

Inductive call : Type :=
| Listen (serverName : string)
| NewConnection (pending : list Socket)
| SocketReadable (sender : Socket) (avail : list byte)
| SocketDisconnected (sender : Socket)
| Write (id : Z) (source : list byte)
| RemoveSession (sessionId : Z)
| KillSocket
| SetInterval (sessionId value : Z)
| ClearInterval (sessionId : Z)
| Timeout (sessionId : Z).            (* the timer of a registered channel fires *)

Definition is_write (c : channel_call) : bool :=
  match c with ChWrite _ => true | _ => false end.

Section WithLimits.
Context `{Limits}.

Definition channel_exec (c : channel_call) : Cxx SessionData.t unit :=
  match c with
  | ChWrite source => _ <- SessionData.write source ;; ret tt
  | ChSetInterval interval => SessionData.setInterval interval
  | ChTimeout => SessionData.timeout
  end.

Fixpoint channel_run (cs : list channel_call) : Cxx SessionData.t unit :=
  match cs with
  | [] => ret tt
  | c :: cs' => channel_exec c ;; channel_run cs'
  end.

Definition exec (c : call) : Cxx SocketHandler.t unit :=
  match c with
  | Listen serverName => _ <- SocketHandler.listen 2 serverName ;; ret tt
  | NewConnection pending => SocketHandler.newConnection pending
  | SocketReadable sender avail => SocketHandler.socketReadable sender avail
  | SocketDisconnected sender => _ <- SocketHandler.socketDisconnected sender ;; ret tt
  | Write id source => _ <- SocketHandler.write id source ;; ret tt
  | RemoveSession sessionId => _ <- SocketHandler.removeSession sessionId ;; ret tt
  | KillSocket => SocketHandler.killSocket
  | SetInterval sessionId value => SocketHandler.setInterval sessionId value
  | ClearInterval sessionId => SocketHandler.clearInterval sessionId
  | Timeout sessionId =>
      h <- this ;;
      match SocketHandler.m_idMap h !! sessionId with
      | Some _ => SocketHandler.through_find sessionId SessionData.timeout
      | None => ret tt
      end
  end.

Fixpoint run (cs : list call) : Cxx SocketHandler.t unit :=
  match cs with
  | [] => ret tt
  | c :: cs' => exec c ;; run cs'
  end.
End WithLimits.


End Life.

(** ** Derived notions and sample inputs *)

(** The elapsed time [SessionData::write] compares with the interval: the
    value [sinceLastWrite()] returns in the given state. *)
Definition elapsed `{Limits} (s : SessionData.t) (w : World) : Z :=
  default 0 (returned (SessionData.sinceLastWrite (s, w))).

Module Sample.
(** A clock reading [ms] milliseconds after second 1000. *)
Definition at_ms (ms : Z) : timeval :=
  mkTimeval (1000 + ms / 1000) (ms mod 1000 * 1000).

(** A fresh world: one clock reading every 50 ms, a transport that
    returns [rc] for every write, a first bind that succeeds iff
    [first_bind], later binds that succeed. *)
Definition world_of (rc : Z) (first_bind : bool) : World :=
  mkWorld (fun k => at_ms (50 * Z.of_nat k)) 0 (fun _ => rc) []
          (fun k => match k with O => first_bind | _ => true end)
          (fun _ => 0) [] 1%positive [] [] true.

Definition calm : World := world_of 3 true.
Definition broken_pipe : World := world_of (-1) true.
Definition stale_endpoint : World := world_of 3 false.

Definition pay1 : list byte := [x01; x02; x03].
Definition pay2 : list byte := [x04; x05; x06].

Definition sock : Socket := 5%positive.

(** A channel straight from the handshake, then limited to 100 ms. *)
Definition fresh : SessionData.t := SessionData.new (Some sock).
Definition limited : SessionData.t := SessionData.with_interval 100 fresh.

(** The same channel after a write completed at second 1000, and a
    world whose next clock reading comes 50 ms after that. *)
Definition paced : SessionData.t := SessionData.with_lastWrite (at_ms 0) limited.
Definition later : World := tick calm.

(** A channel as [paced], with a five-byte payload pending and its
    timer running. *)
Definition armed : SessionData.t :=
  SessionData.mk (Some sock) 100 (Some [x09; x09; x09; x09; x09]) 5 (at_ms 0)
                 (QTimer.Running 4%positive 80).

(** A channel whose last write completed late in second 999, 50.1 ms
    before the reading [later] gives next. *)
Definition late_stamp : SessionData.t :=
  SessionData.with_lastWrite (mkTimeval 999 999900) limited.

(** A multiplexer with session 7 registered. *)
Definition one_session (sd : SessionData.t) : SocketHandler.t :=
  SocketHandler.with_idMap (<[7 := sd]> ∅) SocketHandler.new.

Definition listening : SocketHandler.t :=
  SocketHandler.with_server (QLocalServer.mk true "/tmp/sensord.sock") SocketHandler.new.
End Sample.

(** * Properties *)

Ltac run :=
  cbv [bind ret crash this assign world world_becomes gettimeofday sensordLog when
       QLocalSocket_write delete_socket
       SessionData.update SessionData.timer_start SessionData.timer_stop
       SocketHandler.update fst snd returned final].

(** ** SessionData *)

Lemma sinceLastWrite_run `{Limits} s w :
  SessionData.sinceLastWrite (s, w)
  = Done (elapsed s w) (s, if tv_sec (SessionData.lastWrite s) =? 0 then w else tick w).
Proof.
  unfold elapsed, SessionData.sinceLastWrite. run.
  destruct (tv_sec (SessionData.lastWrite s) =? 0); reflexivity.
Qed.

Lemma elapsed_never_written `{Limits} s w :
  tv_sec (SessionData.lastWrite s) = 0 -> elapsed s w = LONG_MAX.
Proof.
  intros Hz. unfold elapsed, SessionData.sinceLastWrite. run. now rewrite Hz.
Qed.

Lemma memcpy_whole (dst src : list byte) :
  length dst = length src -> memcpy dst src (Z.of_nat (length src)) = src.
Proof.
  intros Hlen. unfold memcpy. rewrite Nat2Z.id.
  rewrite firstn_all, drop_ge by lia. apply app_nil_r.
Qed.

Lemma new_char_length (n : nat) : length (new_char (Z.of_nat n)) = n.
Proof. unfold new_char. now rewrite Nat2Z.id, length_replicate. Qed.

(** What the deferred branch leaves in the channel. *)
Lemma write_deferred `{Limits} (s : SessionData.t) (w : World) (src : list byte) :
  SessionData.interval s <> -1 ->
  elapsed s w < SessionData.interval s ->
  SessionData.wf s ->
  exists s' w',
    SessionData.write src (s, w) = Done true (s', w')
    /\ SessionData.buffer s' = Some src
    /\ SessionData.size s' = Z.of_nat (length src)
    /\ SessionData.lastWrite s' = SessionData.lastWrite s
    /\ wire w' = wire w
    /\ SessionData.timer s' =
         match SessionData.timer s with
         | QTimer.Stopped => QTimer.Stopped
         | QTimer.Running _ _ =>
             QTimer.Running (next_timer w)
               (to_int (to_long (SessionData.interval s - elapsed s w)))
         end.
Proof.
  intros Hi Hlt Hwf. unfold SessionData.write. run.
  destruct (SessionData.interval s =? -1) eqn:E1; [lia|].
  rewrite sinceLastWrite_run.
  destruct (elapsed s w >=? SessionData.interval s) eqn:E2; [lia|].
  unfold SessionData.wf in Hwf.
  assert (Hbuf : forall b, length b = length src -> Some (memcpy b src (Z.of_nat (length src))) = Some src)
    by (intros b Hb; now rewrite memcpy_whole).
  destruct s as [so iv bf sz lw tm]; simpl in *.
  destruct bf as [b|]; simpl.
  - destruct (Z.of_nat (length src) =? sz) eqn:E3; simpl.
    + destruct tm; simpl;
        destruct (tv_sec lw =? 0); do 2 eexists; (split; [reflexivity|]); simpl;
          (repeat split; try reflexivity; apply Hbuf; lia).
    + destruct tm; simpl;
        destruct (tv_sec lw =? 0); do 2 eexists; (split; [reflexivity|]); simpl;
          (repeat split; try reflexivity; apply Hbuf, new_char_length).
  - destruct tm; simpl;
      destruct (tv_sec lw =? 0); do 2 eexists; (split; [reflexivity|]); simpl;
        (repeat split; try reflexivity; apply Hbuf, new_char_length).
Qed.

(** A stopped timer stays stopped through [write]: the only call of
    [timer.start] sits behind [timerId() != -1]. *)
Lemma write_keeps_timer_stopped `{Limits} (s : SessionData.t) (w : World) (src : list byte) :
  SessionData.timer s = QTimer.Stopped ->
  SessionData.timer (fst (final (SessionData.write src (s, w)))) = QTimer.Stopped.
Proof.
  intros Ht. unfold SessionData.write. run.
  destruct (SessionData.interval s =? -1).
  - destruct (SessionData.socket s); simpl; exact Ht.
  - rewrite sinceLastWrite_run.
    destruct (elapsed s w >=? SessionData.interval s).
    + destruct (SessionData.socket s); simpl; exact Ht.
    + destruct s as [so iv bf sz lw tm]; simpl in *. subst tm.
      destruct bf as [b|]; simpl;
        [destruct (Z.of_nat (length src) =? sz)|]; reflexivity.
Qed.

(** No [timeout()] reaches [delayedWrite] while the timer is stopped. *)
Lemma timeout_stopped (s : SessionData.t) (w : World) :
  SessionData.timer s = QTimer.Stopped ->
  SessionData.timeout (s, w) = Done tt (s, w).
Proof. intros Ht. unfold SessionData.timeout. run. now rewrite Ht. Qed.

(** C1 (the code departs from the claim).  A channel limited to 100 ms
    takes a first write at once; a second write 50 ms later goes to the
    deferred branch with no timer armed.  The claim wants a one-shot
    timer armed for the remaining 50 ms; the code tests
    [timerId() != -1], finds the timer stopped, logs that the timer is
    already running and arms nothing, so the buffered payload is never
    written. *)
Theorem deferred_write_arms_no_timer :
  exists s1 w1 s2 w2,
    SessionData.write (H := LP64) Sample.pay1 (Sample.limited, Sample.calm) = Done true (s1, w1)
    /\ elapsed (H := LP64) s1 w1 = 50
    /\ SessionData.write (H := LP64) Sample.pay2 (s1, w1) = Done true (s2, w2)
    /\ SessionData.buffer s2 = Some Sample.pay2
    /\ QTimer.timerId (SessionData.timer s1) = -1
    /\ QTimer.timerId (SessionData.timer s2) = -1
    /\ last (log w2) = Some (mkLog LogT "[SocketHandler]: timer already running" None)
    /\ SessionData.timeout (s2, w2) = Done tt (s2, w2)
    /\ wire w2 = [(Sample.sock, Sample.pay1)].
Proof.
  do 4 eexists.
  split; [vm_compute; reflexivity|].
  split; [vm_compute; reflexivity|].
  split; [vm_compute; reflexivity|].
  repeat split.
Qed.

(** C4.  With no interval set, or with at least the interval elapsed
    since the last write, [SessionData::write] hands the payload to the
    socket at once (exactly one new physical write, of this payload),
    stores the clock reading it has just taken as the last-write time,
    changes nothing else in the channel, and returns [false] exactly when
    the socket's write returned a negative value. *)
Theorem write_immediate `{Limits} (s : SessionData.t) (w : World) (sk : Socket)
        (src : list byte) :
  SessionData.socket s = Some sk ->
  SessionData.interval s = -1 \/ SessionData.interval s <= elapsed s w ->
  exists s' w',
    SessionData.write src (s, w)
    = Done (if transport w (length (wire w)) <? 0 then false else true) (s', w')
    /\ wire w' = wire w ++ [(sk, src)]
    /\ (clock_reads w < clock_reads w')%nat
    /\ SessionData.lastWrite s' = clock w (Nat.pred (clock_reads w'))
    /\ s' = SessionData.with_lastWrite (SessionData.lastWrite s') s.
Proof.
  intros Hsk Hpass. unfold SessionData.write. run. rewrite Hsk.
  destruct (SessionData.interval s =? -1) eqn:Hi.
  - do 2 eexists. split; [reflexivity|]. simpl. repeat split; lia.
  - rewrite sinceLastWrite_run.
    destruct Hpass as [Hp|Hp]; [lia|].
    destruct (elapsed s w >=? SessionData.interval s) eqn:Hge; [|lia].
    destruct (tv_sec (SessionData.lastWrite s) =? 0);
      do 2 eexists; (split; [reflexivity|]); simpl; repeat split; lia.
Qed.

Lemma write_immediate_witness :
  (SessionData.socket Sample.fresh = Some Sample.sock
   /\ (SessionData.interval Sample.fresh = -1
       \/ SessionData.interval Sample.fresh <= elapsed (H := LP64) Sample.fresh Sample.broken_pipe))
  /\ exists s' w',
      SessionData.write (H := LP64) Sample.pay1 (Sample.fresh, Sample.broken_pipe)
      = Done false (s', w')
      /\ wire w' = [(Sample.sock, Sample.pay1)]
      /\ (0 < clock_reads w')%nat
      /\ SessionData.lastWrite s' = clock Sample.broken_pipe (Nat.pred (clock_reads w'))
      /\ s' = SessionData.with_lastWrite (SessionData.lastWrite s') Sample.fresh.
Proof.
  assert (Hsk : SessionData.socket Sample.fresh = Some Sample.sock) by reflexivity.
  assert (Hpass : SessionData.interval Sample.fresh = -1
                  \/ SessionData.interval Sample.fresh
                     <= elapsed (H := LP64) Sample.fresh Sample.broken_pipe)
    by (left; reflexivity).
  split; [split; assumption|].
  exact (write_immediate (H := LP64) Sample.fresh Sample.broken_pipe Sample.sock
                         Sample.pay1 Hsk Hpass).
Defined.

(** C9.  While no write has completed (the seconds of the last-write
    time are still zero) the elapsed-time query reports [LONG_MAX], so a
    write takes the immediate path whatever positive interval is set. *)
Theorem first_write_immediate `{Limits} (s : SessionData.t) (w : World) (sk : Socket)
        (src : list byte) :
  INT_MAX <= LONG_MAX ->
  SessionData.socket s = Some sk ->
  tv_sec (SessionData.lastWrite s) = 0 ->
  0 < SessionData.interval s <= INT_MAX ->
  elapsed s w = LONG_MAX
  /\ SessionData.write src (s, w)
     = Done (if transport w (length (wire w)) <? 0 then false else true)
         (SessionData.with_lastWrite (clock w (clock_reads w)) s,
          sent sk src
            (tick (logged (mkLog LogT "[SocketHandler]: pass-through. since > interval" None)
                          w))).
Proof.
  intros Hlong Hsk Hz [Hpos Hint].
  split; [now apply elapsed_never_written|].
  unfold SessionData.write. run. rewrite Hsk.
  destruct (SessionData.interval s =? -1) eqn:Hi; [lia|].
  rewrite sinceLastWrite_run, (elapsed_never_written s w Hz), Hz. simpl.
  destruct (LONG_MAX >=? SessionData.interval s) eqn:Hge; [reflexivity|lia].
Qed.

Lemma first_write_immediate_witness :
  (INT_MAX <= LONG_MAX (Limits := ILP32)
   /\ SessionData.socket Sample.limited = Some Sample.sock
   /\ tv_sec (SessionData.lastWrite Sample.limited) = 0
   /\ 0 < SessionData.interval Sample.limited <= INT_MAX)
  /\ elapsed (H := ILP32) Sample.limited Sample.calm = 2147483647
  /\ SessionData.write (H := ILP32) Sample.pay1 (Sample.limited, Sample.calm)
     = Done true
         (SessionData.with_lastWrite (Sample.at_ms 0) Sample.limited,
          sent Sample.sock Sample.pay1
            (tick (logged (mkLog LogT "[SocketHandler]: pass-through. since > interval" None)
                          Sample.calm))).
Proof.
  assert (Hlong : INT_MAX <= LONG_MAX (Limits := ILP32)) by (vm_compute; discriminate).
  assert (Hsk : SessionData.socket Sample.limited = Some Sample.sock) by reflexivity.
  assert (Hz : tv_sec (SessionData.lastWrite Sample.limited) = 0) by reflexivity.
  assert (Hiv : 0 < SessionData.interval Sample.limited <= INT_MAX)
    by (vm_compute; split; [reflexivity | discriminate]).
  split; [exact (conj Hlong (conj Hsk (conj Hz Hiv)))|].
  exact (first_write_immediate (H := ILP32) Sample.limited Sample.calm Sample.sock
                               Sample.pay1 Hlong Hsk Hz Hiv).
Defined.

(** C10.  In the deferred branch [SessionData::write] returns [true] in
    every world, so whatever the transport would answer, and performs no
    physical write; [delayedWrite] returns nothing and leaves the channel
    in a state that does not depend on what the socket's write returned. *)
Theorem deferred_write_reports_success `{Limits} (s : SessionData.t) (w : World)
        (src : list byte) :
  SessionData.interval s <> -1 ->
  elapsed s w < SessionData.interval s ->
  (returned (SessionData.write src (s, w)) = Some true
   /\ wire (snd (final (SessionData.write src (s, w)))) = wire w)
  /\ (forall (s1 : SessionData.t) (w1 : World) (sk : Socket),
         SessionData.socket s1 = Some sk ->
         SessionData.delayedWrite (s1, w1)
         = Done tt
             (SessionData.with_lastWrite (clock w1 (clock_reads w1))
                (SessionData.with_timer QTimer.Stopped s1),
              sent sk (take (Z.to_nat (SessionData.size s1))
                            (default [] (SessionData.buffer s1)))
                   (tick w1)))
  /\ (forall (s1 : SessionData.t) (w1 : World) (f : nat -> Z),
         fst (final (SessionData.delayedWrite (s1, with_transport f w1)))
         = fst (final (SessionData.delayedWrite (s1, w1)))
         /\ returned (SessionData.delayedWrite (s1, with_transport f w1))
            = returned (SessionData.delayedWrite (s1, w1))).
Proof.
  intros Hi Hlt. split; [|split].
  - unfold SessionData.write. run.
    destruct (SessionData.interval s =? -1) eqn:E1; [lia|].
    rewrite sinceLastWrite_run.
    destruct (elapsed s w >=? SessionData.interval s) eqn:E2; [lia|].
    destruct s as [so iv bf sz lw tm]; simpl.
    destruct bf as [b|]; simpl;
      [destruct (Z.of_nat (length src) =? sz); simpl|];
      destruct tm; simpl; destruct (tv_sec lw =? 0); split; reflexivity.
  - intros s1 w1 sk Hsk. unfold SessionData.delayedWrite. run.
    simpl. rewrite Hsk. reflexivity.
  - intros s1 w1 f. unfold SessionData.delayedWrite. run. simpl.
    destruct (SessionData.socket s1); split; reflexivity.
Qed.

Lemma deferred_write_reports_success_witness :
  (SessionData.interval Sample.paced <> -1
   /\ elapsed (H := LP64) Sample.paced Sample.later < SessionData.interval Sample.paced)
  /\ returned (SessionData.write (H := LP64) Sample.pay2 (Sample.paced, Sample.later))
     = Some true
  /\ wire (snd (final (SessionData.write (H := LP64) Sample.pay2
                                          (Sample.paced, Sample.later)))) = [].
Proof.
  assert (Hi : SessionData.interval Sample.paced <> -1) by (vm_compute; discriminate).
  assert (Hlt : elapsed (H := LP64) Sample.paced Sample.later
                < SessionData.interval Sample.paced) by (vm_compute; reflexivity).
  split; [split; assumption|].
  exact (proj1 (deferred_write_reports_success (H := LP64) Sample.paced Sample.later
                                               Sample.pay2 Hi Hlt)).
Defined.

(** ** SocketHandler *)

Lemma elem_of_keys (m : gmap Z SessionData.t) (k : Z) :
  k ∈ SocketHandler.keys m <-> is_Some (m !! k).
Proof.
  unfold SocketHandler.keys. rewrite list_elem_of_fmap. split.
  - intros [[k' v] [-> Hin]]. apply elem_of_map_to_list in Hin. eauto.
  - intros [v Hv]. exists (k, v). split; [reflexivity|]. now apply elem_of_map_to_list.
Qed.

Lemma with_idMap_same (h : SocketHandler.t) :
  SocketHandler.with_idMap (SocketHandler.m_idMap h) h = h.
Proof. now destruct h. Qed.

(** With [sessionId] absent, [removeSession] logs and then dereferences
    the end iterator all the same. *)
Lemma removeSession_unknown (h : SocketHandler.t) (w : World) (sessionId : Z) :
  SocketHandler.m_idMap h !! sessionId = None ->
  SocketHandler.removeSession sessionId (h, w)
  = Crash EndIteratorDereference
      (h, logged (mkLog LogD "[SocketHandler]: Trying to remove nonexistent session." None) w).
Proof.
  intros Hnone. unfold SocketHandler.removeSession. run.
  rewrite bool_decide_eq_false_2.
  - simpl. unfold SocketHandler.through_find. simpl. now rewrite Hnone.
  - rewrite elem_of_keys, Hnone. intros [? ?]; discriminate.
Qed.

(** [clearInterval] erases the map entry of the session. *)
Lemma clearInterval_run (h : SocketHandler.t) (w : World) (sessionId : Z) :
  SocketHandler.clearInterval sessionId (h, w)
  = Done tt (SocketHandler.with_idMap (delete sessionId (SocketHandler.m_idMap h)) h, w).
Proof.
  unfold SocketHandler.clearInterval. run.
  destruct (SocketHandler.m_idMap h !! sessionId) eqn:Hl; [reflexivity|].
  now rewrite delete_id, with_idMap_same.
Qed.

(** C2 (the code departs from the claim).  [removeSession] on an
    identifier that is not registered, and so also a second call after a
    successful first one, logs the condition and then goes on to
    dereference [m_idMap.find(sessionId)], the end iterator: undefined
    behaviour where the claim wants a no-op that only logs. *)
Theorem removeSession_unknown_dereferences_end :
  SocketHandler.removeSession 8 (Sample.one_session Sample.fresh, Sample.calm)
  = Crash EndIteratorDereference
      (Sample.one_session Sample.fresh,
       logged (mkLog LogD "[SocketHandler]: Trying to remove nonexistent session." None)
              Sample.calm)
  /\ exists h1,
      SocketHandler.removeSession 7 (Sample.one_session Sample.fresh, Sample.calm)
      = Done true (h1, Sample.calm)
      /\ SocketHandler.m_idMap h1 = ∅
      /\ SocketHandler.m_tmpSocks h1 = [Sample.sock]
      /\ SocketHandler.removeSession 7 (h1, Sample.calm)
         = Crash EndIteratorDereference
             (h1, logged (mkLog LogD "[SocketHandler]: Trying to remove nonexistent session."
                                None)
                         Sample.calm).
Proof.
  split.
  - apply removeSession_unknown. reflexivity.
  - eexists. split; [vm_compute; reflexivity|].
    split; [reflexivity|]. split; [reflexivity|].
    apply removeSession_unknown. reflexivity.
Qed.

(** C3 (the code departs from the claim).  [clearInterval] on a
    registered session erases the session's entry from the map instead
    of resetting the channel's interval: a write that was routed to the
    channel before is answered with session-not-found afterwards.  The
    sibling [setInterval] reaches the channel and keeps the entry. *)
Theorem clearInterval_unregisters_session :
  let h := Sample.one_session Sample.limited in
  exists h',
    SocketHandler.clearInterval 7 (h, Sample.calm) = Done tt (h', Sample.calm)
    /\ SocketHandler.m_idMap h !! 7 = Some Sample.limited
    /\ SocketHandler.m_idMap h' !! 7 = None
    /\ returned (SocketHandler.write (H := LP64) 7 Sample.pay1 (h, Sample.calm)) = Some true
    /\ returned (SocketHandler.write (H := LP64) 7 Sample.pay1 (h', Sample.calm)) = Some false
    /\ wire (snd (final (SocketHandler.write (H := LP64) 7 Sample.pay1 (h', Sample.calm)))) = []
    /\ SocketHandler.m_idMap
         (fst (final (SocketHandler.setInterval 7 (-1) (h, Sample.calm)))) !! 7
       = Some Sample.fresh.
Proof.
  intros h. eexists. split; [apply clearInterval_run|].
  repeat split; vm_compute; reflexivity.
Qed.

(** The claim read literally: [false] comes back exactly when no channel
    is registered.  A registered channel whose transport fails refutes it. *)
Lemma write_false_not_only_unregistered :
  ~ (forall (h : SocketHandler.t) (w : World) (id : Z) (src : list byte),
        returned (SocketHandler.write (H := LP64) id src (h, w)) = Some false
        <-> SocketHandler.m_idMap h !! id = None).
Proof.
  intros Hiff.
  specialize (Hiff (Sample.one_session Sample.fresh) Sample.broken_pipe 7 Sample.pay1).
  destruct Hiff as [Hfalse _].
  assert (Hreg : SocketHandler.m_idMap (Sample.one_session Sample.fresh) !! 7
                 = Some Sample.fresh) by reflexivity.
  rewrite Hfalse in Hreg; [discriminate|].
  vm_compute. reflexivity.
Qed.

(** C5, as the code has it.  With no channel registered for the
    identifier [SocketHandler::write] returns [false] and touches nothing
    but the log; with a channel registered it returns what that channel's
    write returns (which is [false] when the transport fails), and the
    only state it touches is that channel and the world the channel's
    write acts on. *)
Theorem write_routes_to_channel `{Limits} (h : SocketHandler.t) (w : World) (id : Z)
        (src : list byte) :
  (SocketHandler.m_idMap h !! id = None ->
   SocketHandler.write id src (h, w)
   = Done false
       (h, logged (mkLog LogD
                     "[SocketHandler]: Trying to write to nonexistent session (normal, no panic)."
                     None) w))
  /\ (forall sd : SessionData.t,
         SocketHandler.m_idMap h !! id = Some sd ->
         let w0 := logged (mkLog LogT "[SocketHandler]: Writing to session " (Some id)) w in
         let o := SessionData.write src (sd, w0) in
         returned (SocketHandler.write id src (h, w)) = returned o
         /\ final (SocketHandler.write id src (h, w))
            = (SocketHandler.with_idMap (<[id := fst (final o)]> (SocketHandler.m_idMap h)) h,
               snd (final o))).
Proof.
  split.
  - intros Hnone. unfold SocketHandler.write. run. now rewrite Hnone.
  - intros sd Hsome w0 o. unfold SocketHandler.write. run. rewrite Hsome.
    unfold SocketHandler.through_find. simpl. rewrite Hsome.
    subst o w0. unfold logged at 1 2. simpl.
    destruct (SessionData.write src _) as [a [sd' w']|e [sd' w']]; split; reflexivity.
Qed.

Lemma write_routes_to_channel_witness :
  (SocketHandler.m_idMap SocketHandler.new !! 7 = None
   /\ SocketHandler.m_idMap (Sample.one_session Sample.fresh) !! 7 = Some Sample.fresh)
  /\ SocketHandler.write (H := LP64) 7 Sample.pay1 (SocketHandler.new, Sample.calm)
     = Done false
         (SocketHandler.new,
          logged (mkLog LogD
                    "[SocketHandler]: Trying to write to nonexistent session (normal, no panic)."
                    None) Sample.calm)
  /\ returned (SocketHandler.write (H := LP64) 7 Sample.pay1
                 (Sample.one_session Sample.fresh, Sample.broken_pipe))
     = returned (SessionData.write (H := LP64) Sample.pay1
                   (Sample.fresh,
                    logged (mkLog LogT "[SocketHandler]: Writing to session " (Some 7))
                           Sample.broken_pipe)).
Proof.
  assert (Hnone : SocketHandler.m_idMap SocketHandler.new !! 7 = None) by reflexivity.
  assert (Hsome : SocketHandler.m_idMap (Sample.one_session Sample.fresh) !! 7
                  = Some Sample.fresh) by reflexivity.
  split; [split; assumption|]. split.
  - exact (proj1 (write_routes_to_channel (H := LP64) SocketHandler.new Sample.calm 7
                                          Sample.pay1) Hnone).
  - exact (proj1 (proj2 (write_routes_to_channel (H := LP64)
                           (Sample.one_session Sample.fresh) Sample.broken_pipe 7
                           Sample.pay1) Sample.fresh Hsome)).
Defined.

(** An identifier arrives intact when the client replies with its four bytes. *)
Lemma byte_at_value (z i : Z) :
  Z.of_N (Byte.to_N (byte_at z i)) = (z / 256 ^ i) mod 256.
Proof.
  unfold byte_at.
  assert (Hr : 0 <= (z / 256 ^ i) mod 256 < 256) by (apply Z.mod_pos_bound; lia).
  destruct (Byte.of_N (Z.to_N ((z / 256 ^ i) mod 256))) as [b|] eqn:Hb.
  - apply Byte.to_of_N in Hb. simpl. rewrite Hb. lia.
  - apply Byte.of_N_None_iff in Hb. lia.
Qed.

Lemma to_int_small (z : Z) : INT_MIN <= z <= INT_MAX -> to_int z = z.
Proof.
  unfold to_int, wrap, INT_MIN, INT_MAX. intros Hz.
  rewrite Z.mod_small; lia.
Qed.

Lemma read_into_int_reply (init id : Z) (rest : list byte) :
  0 <= id <= INT_MAX -> read_into_int init (int_to_bytes id ++ rest) = id.
Proof.
  intros Hid. unfold read_into_int, memcpy, int_to_bytes, int_of_bytes.
  rewrite Z.min_l by (rewrite length_app; simpl; lia).
  change (Z.to_nat 4) with 4%nat. simpl.
  rewrite !byte_at_value.
  rewrite to_int_small; unfold INT_MIN, INT_MAX in *;
    change (256 ^ 0) with 1; change (256 ^ 1) with 256;
    change (256 ^ 2) with 65536; change (256 ^ 3) with 16777216;
    Z.div_mod_to_equations; lia.
Qed.

(** C6.  In [socketReadable] a non-negative identifier that is not yet
    registered adds exactly one entry to the session map, a fresh channel
    on the sending socket under that identifier, every other entry
    untouched; an identifier that is registered already leaves the map
    as it is, with the channel registered first still in place. *)
Theorem handshake_registers_once (h : SocketHandler.t) (w : World) (sender : Socket)
        (avail : list byte) (id : Z) :
  read_into_int (-1) avail = id ->
  0 <= id ->
  exists h',
    SocketHandler.socketReadable sender avail (h, w) = Done tt (h', w)
    /\ match SocketHandler.m_idMap h !! id with
       | None =>
           SocketHandler.m_idMap h'
           = <[id := SessionData.new (Some sender)]> (SocketHandler.m_idMap h)
           /\ SocketHandler.m_idMap h' !! id = Some (SessionData.new (Some sender))
           /\ size (SocketHandler.m_idMap h') = S (size (SocketHandler.m_idMap h))
           /\ (forall k, k <> id ->
                  SocketHandler.m_idMap h' !! k = SocketHandler.m_idMap h !! k)
       | Some first =>
           SocketHandler.m_idMap h' = SocketHandler.m_idMap h
           /\ SocketHandler.m_idMap h' !! id = Some first
       end.
Proof.
  intros Hread Hpos. unfold SocketHandler.socketReadable. rewrite Hread. run.
  destruct (0 <=? id) eqn:E; [|lia].
  unfold SocketHandler.contains. simpl.
  destruct (SocketHandler.m_idMap h !! id) as [first|] eqn:Hl.
  - rewrite bool_decide_eq_true_2 by eauto. simpl.
    eexists. split; [reflexivity|]. simpl. split; [reflexivity|exact Hl].
  - rewrite bool_decide_eq_false_2 by (intros [? ?]; discriminate). simpl.
    eexists. split; [reflexivity|]. simpl.
    split; [reflexivity|]. split; [apply lookup_insert_eq|].
    split; [now apply map_size_insert_None|].
    intros k Hk. now apply lookup_insert_ne.
Qed.

Lemma handshake_registers_once_witness :
  (read_into_int (-1) (int_to_bytes 7) = 7 /\ 0 <= 7)
  /\ exists h',
      SocketHandler.socketReadable 9%positive (int_to_bytes 7)
        (Sample.one_session Sample.limited, Sample.calm)
      = Done tt (h', Sample.calm)
      /\ SocketHandler.m_idMap h' = SocketHandler.m_idMap (Sample.one_session Sample.limited)
      /\ SocketHandler.m_idMap h' !! 7 = Some Sample.limited.
Proof.
  assert (Hread : read_into_int (-1) (int_to_bytes 7) = 7) by (vm_compute; reflexivity).
  assert (Hpos : 0 <= 7) by lia.
  split; [split; assumption|].
  exact (handshake_registers_once (Sample.one_session Sample.limited) Sample.calm
                                  9%positive (int_to_bytes 7) 7 Hread Hpos).
Defined.

(** One bind attempt of a server that is not listening. *)
Lemma server_listen_run (h : SocketHandler.t) (w : World) (name : string) :
  QLocalServer.isListening (SocketHandler.m_server h) = false ->
  SocketHandler.server_listen name (h, w)
  = Done (bind_ok w (length (syscalls w)))
      (SocketHandler.with_server
         (QLocalServer.mk (bind_ok w (length (syscalls w))) name) h,
       called (SysListen name) w).
Proof.
  intros Hl. unfold SocketHandler.server_listen. run. now rewrite Hl.
Qed.

(** C7.  [listen] on a server that is listening already returns [false]
    and does nothing but log.  Otherwise, when the first bind fails and
    the name starts with a slash, the system calls of the whole call are
    one bind, one unlink of the name and one more bind, in this order,
    and the value returned is the success of that second bind. *)
Theorem listen_cleans_up_once (h : SocketHandler.t) (w : World) (name : string)
        (fuel : nat) :
  (QLocalServer.isListening (SocketHandler.m_server h) = true ->
   SocketHandler.listen fuel name (h, w)
   = Done (Some false) (h, logged (mkLog LogW "[SocketHandler]: Already listening" None) w))
  /\ (QLocalServer.isListening (SocketHandler.m_server h) = false ->
      bind_ok w (length (syscalls w)) = false ->
      SocketHandler.first_is_slash name = true ->
      (2 <= fuel)%nat ->
      exists h' w',
        SocketHandler.listen fuel name (h, w)
        = Done (Some (bind_ok w (length (syscalls w) + 2))) (h', w')
        /\ syscalls w' = syscalls w ++ [SysListen name; SysUnlink name; SysListen name]
        /\ QLocalServer.isListening (SocketHandler.m_server h')
           = bind_ok w (length (syscalls w) + 2)
        /\ SocketHandler.m_idMap h' = SocketHandler.m_idMap h).
Proof.
  split.
  - intros Hl. unfold SocketHandler.listen. run. now rewrite Hl.
  - intros Hl Hfail Hslash Hfuel.
    destruct fuel as [|[|fuel]]; [lia|lia|].
    unfold SocketHandler.listen.
    cbv [bind this fst]. rewrite Hl.
    cbn [SocketHandler.listen_loop]. cbv [bind].
    rewrite (server_listen_run h w name Hl), Hfail, Hslash. cbn [negb andb].
    unfold SocketHandler.unlink. run. cbn [called syscalls bind_ok unlink_rc].
    set (h1 := SocketHandler.with_server (QLocalServer.mk false name) h).
    set (rc := unlink_rc w (length (syscalls w ++ [SysListen name]))).
    assert (Hl1 : QLocalServer.isListening (SocketHandler.m_server h1) = false)
      by reflexivity.
    destruct (rc =? 0);
      match goal with
      | |- context [SocketHandler.server_listen name (h1, ?w1)] =>
          rewrite (server_listen_run h1 w1 name Hl1)
      end;
      cbn [syscalls logged called bind_ok andb negb];
      rewrite <- app_assoc, !length_app; cbn [length Nat.add app];
      replace (length (syscalls w) + (1 + 1))%nat with (length (syscalls w) + 2)%nat by lia;
      destruct (bind_ok w (length (syscalls w) + 2));
      cbn [negb andb]; do 2 eexists; (split; [reflexivity|]);
      cbn [syscalls logged called]; rewrite <- !app_assoc; repeat split.
Qed.

Lemma listen_cleans_up_once_witness :
  (QLocalServer.isListening (SocketHandler.m_server Sample.listening) = true
   /\ QLocalServer.isListening (SocketHandler.m_server SocketHandler.new) = false
   /\ bind_ok Sample.stale_endpoint (length (syscalls Sample.stale_endpoint)) = false
   /\ SocketHandler.first_is_slash "/tmp/sensord.sock" = true
   /\ (2 <= 2)%nat)
  /\ SocketHandler.listen 2 "/tmp/sensord.sock" (Sample.listening, Sample.calm)
     = Done (Some false)
         (Sample.listening,
          logged (mkLog LogW "[SocketHandler]: Already listening" None) Sample.calm)
  /\ exists h' w',
      SocketHandler.listen 2 "/tmp/sensord.sock" (SocketHandler.new, Sample.stale_endpoint)
      = Done (Some true) (h', w')
      /\ syscalls w'
         = [SysListen "/tmp/sensord.sock"; SysUnlink "/tmp/sensord.sock";
            SysListen "/tmp/sensord.sock"]
      /\ QLocalServer.isListening (SocketHandler.m_server h') = true
      /\ SocketHandler.m_idMap h' = ∅.
Proof.
  assert (H1 : QLocalServer.isListening (SocketHandler.m_server Sample.listening) = true)
    by reflexivity.
  assert (H2 : QLocalServer.isListening (SocketHandler.m_server SocketHandler.new) = false)
    by reflexivity.
  assert (H3 : bind_ok Sample.stale_endpoint (length (syscalls Sample.stale_endpoint))
               = false) by reflexivity.
  assert (H4 : SocketHandler.first_is_slash "/tmp/sensord.sock" = true) by reflexivity.
  assert (H5 : (2 <= 2)%nat) by lia.
  split; [exact (conj H1 (conj H2 (conj H3 (conj H4 H5))))|]. split.
  - exact (proj1 (listen_cleans_up_once Sample.listening Sample.calm
                                        "/tmp/sensord.sock" 2) H1).
  - exact (proj2 (listen_cleans_up_once SocketHandler.new Sample.stale_endpoint
                                        "/tmp/sensord.sock" 2) H2 H3 H4 H5).
Defined.

(** ** NodeBase *)

(** C8.  The base-class [setStandbyOverride] returns [false] for either
    argument and leaves the node and the world as they were. *)
Theorem setStandbyOverride_base_fails {DataRange DataRangeRequest : Type}
        (n : NodeBase.t DataRange DataRangeRequest) (w : World) (override : bool) :
  NodeBase.setStandbyOverride override (n, w) = Done false (n, w).
Proof. destruct override; reflexivity. Qed.

(** * Further properties *)

(** ** SessionData, beyond the stated claims *)

Lemma wrap_small (hi z : Z) : 0 <= hi -> - (hi + 1) <= z <= hi -> wrap hi z = z.
Proof. intros Hhi Hz. unfold wrap. rewrite Z.mod_small; lia. Qed.

Lemma new_wf (sock : option Socket) : SessionData.wf (SessionData.new sock).
Proof. exact I. Qed.

(** The parts of the channel [write] never touches, and the two
    invariants it keeps. *)
Lemma write_channel_frame `{Limits} (s : SessionData.t) (w : World) (src : list byte) :
  let s' := fst (final (SessionData.write src (s, w))) in
  SessionData.socket s' = SessionData.socket s
  /\ SessionData.interval s' = SessionData.interval s
  /\ (SessionData.wf s -> SessionData.wf s').
Proof.
  unfold SessionData.write. run.
  destruct (SessionData.interval s =? -1).
  - destruct (SessionData.socket s) eqn:Hs; unfold SessionData.wf; simpl; auto.
  - rewrite sinceLastWrite_run.
    destruct (elapsed s w >=? SessionData.interval s).
    + destruct (SessionData.socket s) eqn:Hs; unfold SessionData.wf; simpl; auto.
    + assert (Hbuf : forall b : list byte,
                 length b = length src ->
                 Z.of_nat (length (memcpy b src (Z.of_nat (length src))))
                 = Z.of_nat (length src))
        by (intros b Hb; now rewrite memcpy_whole).
      unfold SessionData.wf.
      destruct s as [so iv bf sz lw tm]; simpl.
      destruct bf as [b|]; simpl;
        [destruct (Z.of_nat (length src) =? sz) eqn:E; simpl|];
        destruct tm; simpl; (split; [reflexivity|]); (split; [reflexivity|]);
        intros Hwf; apply Hbuf; try apply new_char_length; lia.
Qed.

(** [write] returns whenever the channel has its socket. *)
Lemma write_returns `{Limits} (s : SessionData.t) (w : World) (src : list byte) :
  is_Some (SessionData.socket s) ->
  exists b st, SessionData.write src (s, w) = Done b st.
Proof.
  intros [sk Hsk]. unfold SessionData.write. run. rewrite Hsk.
  destruct (SessionData.interval s =? -1); [eauto|].
  rewrite sinceLastWrite_run.
  destruct (elapsed s w >=? SessionData.interval s); [eauto|].
  destruct s as [so iv bf sz lw tm]; simpl.
  destruct bf as [b|]; simpl;
    [destruct (Z.of_nat (length src) =? sz); simpl|];
    destruct tm; simpl; eauto.
Qed.

(** [write] puts at most one entry on the wire. *)
Lemma write_wire_growth `{Limits} (s : SessionData.t) (w : World) (src : list byte) :
  (length (wire (snd (final (SessionData.write src (s, w))))) <= S (length (wire w)))%nat.
Proof.
  unfold SessionData.write. run.
  destruct (SessionData.interval s =? -1).
  - destruct (SessionData.socket s); simpl; [rewrite length_app; simpl|]; lia.
  - rewrite sinceLastWrite_run.
    destruct (elapsed s w >=? SessionData.interval s).
    + destruct (SessionData.socket s); destruct (tv_sec (SessionData.lastWrite s) =? 0);
        simpl; try rewrite length_app; simpl; lia.
    + destruct s as [so iv bf sz lw tm]; simpl.
      destruct bf as [b|]; simpl;
        [destruct (Z.of_nat (length src) =? sz); simpl|];
        destruct tm; simpl; destruct (tv_sec lw =? 0); simpl; lia.
Qed.

(** X1.  A write that falls into the deferred branch of a well-formed
    channel replaces whatever the pending buffer held by exactly the new
    payload, records its length, performs no physical write and leaves
    the last-write time alone.  A stopped timer stays stopped; a running
    one is restarted for the remaining time, narrowed to [int]. *)
Theorem deferred_write_effect `{Limits} (s : SessionData.t) (w : World) (src : list byte) :
  SessionData.interval s <> -1 ->
  elapsed s w < SessionData.interval s ->
  SessionData.wf s ->
  exists s' w',
    SessionData.write src (s, w) = Done true (s', w')
    /\ SessionData.buffer s' = Some src
    /\ SessionData.size s' = Z.of_nat (length src)
    /\ SessionData.lastWrite s' = SessionData.lastWrite s
    /\ wire w' = wire w
    /\ SessionData.timer s' =
         match SessionData.timer s with
         | QTimer.Stopped => QTimer.Stopped
         | QTimer.Running _ _ =>
             QTimer.Running (next_timer w)
               (to_int (to_long (SessionData.interval s - elapsed s w)))
         end.
Proof. exact (write_deferred s w src). Qed.

Lemma deferred_write_effect_witness :
  (SessionData.interval Sample.armed <> -1
   /\ elapsed (H := LP64) Sample.armed Sample.later < SessionData.interval Sample.armed
   /\ SessionData.wf Sample.armed)
  /\ exists s' w',
      SessionData.write (H := LP64) Sample.pay2 (Sample.armed, Sample.later)
      = Done true (s', w')
      /\ SessionData.buffer s' = Some Sample.pay2
      /\ SessionData.size s' = 3
      /\ SessionData.lastWrite s' = Sample.at_ms 0
      /\ wire w' = []
      /\ SessionData.timer s' = QTimer.Running 1%positive 50.
Proof.
  assert (Hi : SessionData.interval Sample.armed <> -1) by (vm_compute; discriminate).
  assert (Hlt : elapsed (H := LP64) Sample.armed Sample.later
                < SessionData.interval Sample.armed) by (vm_compute; reflexivity).
  assert (Hwf : SessionData.wf Sample.armed) by reflexivity.
  split; [exact (conj Hi (conj Hlt Hwf))|].
  exact (deferred_write_effect (H := LP64) Sample.armed Sample.later Sample.pay2
                               Hi Hlt Hwf).
Defined.

(** X2.  The pending buffer of a channel holds exactly [size] bytes
    whenever it exists: the constructor establishes this, and [write],
    [delayedWrite], [setInterval] and [stealSocket] keep it. *)
Theorem buffer_size_invariant `{Limits} (s : SessionData.t) (w : World) (src : list byte)
        (v : Z) :
  SessionData.wf s ->
  SessionData.wf (fst (final (SessionData.write src (s, w))))
  /\ SessionData.wf (fst (final (SessionData.delayedWrite (s, w))))
  /\ SessionData.wf (fst (final (SessionData.setInterval v (s, w))))
  /\ SessionData.wf (fst (final (SessionData.stealSocket (s, w)))).
Proof.
  intros Hwf. split; [now apply write_channel_frame|].
  split; [|split; exact Hwf].
  unfold SessionData.delayedWrite. run. simpl.
  destruct (SessionData.socket s); exact Hwf.
Qed.

Lemma buffer_size_invariant_witness :
  SessionData.wf Sample.armed
  /\ SessionData.wf
       (fst (final (SessionData.write (H := LP64) Sample.pay1 (Sample.armed, Sample.later))))
  /\ SessionData.wf (fst (final (SessionData.delayedWrite (Sample.armed, Sample.later))))
  /\ SessionData.wf (fst (final (SessionData.setInterval 20 (Sample.armed, Sample.later))))
  /\ SessionData.wf (fst (final (SessionData.stealSocket (Sample.armed, Sample.later)))).
Proof.
  assert (Hwf : SessionData.wf Sample.armed) by reflexivity.
  split; [exact Hwf|].
  exact (buffer_size_invariant (H := LP64) Sample.armed Sample.later Sample.pay1 20 Hwf).
Defined.

(** [write] reads the clock and the transport; it replaces neither. *)
Lemma write_clock_same `{Limits} (s : SessionData.t) (w : World) (src : list byte) :
  clock (snd (final (SessionData.write src (s, w)))) = clock w.
Proof.
  unfold SessionData.write. run.
  destruct (SessionData.interval s =? -1).
  - destruct (SessionData.socket s); reflexivity.
  - rewrite sinceLastWrite_run.
    destruct (elapsed s w >=? SessionData.interval s).
    + destruct (SessionData.socket s); destruct (tv_sec (SessionData.lastWrite s) =? 0);
        reflexivity.
    + destruct s as [so iv bf sz lw tm]; simpl.
      destruct bf as [b|]; simpl;
        [destruct (Z.of_nat (length src) =? sz); simpl|];
        destruct tm; simpl; destruct (tv_sec lw =? 0); reflexivity.
Qed.

Lemma write_clock_reads `{Limits} (s : SessionData.t) (w : World) (src : list byte) :
  (clock_reads w <= clock_reads (snd (final (SessionData.write src (s, w)))))%nat.
Proof.
  unfold SessionData.write. run.
  destruct (SessionData.interval s =? -1).
  - destruct (SessionData.socket s); simpl; lia.
  - rewrite sinceLastWrite_run.
    destruct (elapsed s w >=? SessionData.interval s).
    + destruct (SessionData.socket s); destruct (tv_sec (SessionData.lastWrite s) =? 0);
        simpl; lia.
    + destruct s as [so iv bf sz lw tm]; simpl.
      destruct bf as [b|]; simpl;
        [destruct (Z.of_nat (length src) =? sz); simpl|];
        destruct tm; simpl; destruct (tv_sec lw =? 0); simpl; lia.
Qed.

(** One call in the life of a channel that has its socket, a
    well-formed buffer and a stopped timer. *)
Lemma channel_exec_step `{Limits} (c : Life.channel_call) (s : SessionData.t) (w : World)
      (sock : Socket) :
  SessionData.socket s = Some sock ->
  SessionData.wf s ->
  SessionData.timer s = QTimer.Stopped ->
  exists s1 w1,
    Life.channel_exec c (s, w) = Done tt (s1, w1)
    /\ SessionData.socket s1 = Some sock
    /\ SessionData.wf s1
    /\ SessionData.timer s1 = QTimer.Stopped
    /\ (length (wire w1)
        <= length (wire w) + (if Life.is_write c then 1 else 0))%nat.
Proof.
  intros Hsk Hwf Htm. destruct c as [src|v|]; simpl.
  - destruct (write_returns s w src) as (b & [s1 w1] & Hrun); [rewrite Hsk; eauto|].
    pose proof (write_channel_frame s w src) as (Hs & _ & Hw).
    pose proof (write_keeps_timer_stopped s w src Htm) as Ht.
    pose proof (write_wire_growth s w src) as Hg.
    rewrite Hrun in Hs, Hw, Ht, Hg. simpl in Hs, Hw, Ht, Hg.
    exists s1, w1. unfold bind, ret. rewrite Hrun.
    repeat split; try assumption; try (now apply Hw); try congruence; lia.
  - exists (SessionData.with_interval v s), w. repeat split; try assumption; lia.
  - exists s, w. rewrite (timeout_stopped s w Htm). repeat split; try assumption; lia.
Qed.

Lemma channel_run_steps `{Limits} (cs : list Life.channel_call) (s : SessionData.t)
      (w : World) (sock : Socket) :
  SessionData.socket s = Some sock ->
  SessionData.wf s ->
  SessionData.timer s = QTimer.Stopped ->
  exists s1 w1,
    Life.channel_run cs (s, w) = Done tt (s1, w1)
    /\ SessionData.socket s1 = Some sock
    /\ SessionData.wf s1
    /\ SessionData.timer s1 = QTimer.Stopped
    /\ (length (wire w1) <= length (wire w) + length (List.filter Life.is_write cs))%nat.
Proof.
  revert s w. induction cs as [|c cs IH]; intros s w Hsk Hwf Htm.
  - exists s, w. simpl. repeat split; try assumption; lia.
  - destruct (channel_exec_step c s w sock Hsk Hwf Htm)
      as (s1 & w1 & Hrun & Hsk1 & Hwf1 & Htm1 & Hlen1).
    destruct (IH s1 w1 Hsk1 Hwf1 Htm1) as (s2 & w2 & Hrun2 & Hsk2 & Hwf2 & Htm2 & Hlen2).
    exists s2, w2. simpl. unfold bind at 1. rewrite Hrun.
    repeat split; try assumption.
    destruct (Life.is_write c); simpl; lia.
Qed.

(** X3.  Whatever writes, interval changes and timer events a channel
    receives after its construction on a socket, every call returns, the
    channel keeps its socket and a well-formed buffer, its timer is never
    running, and the wire carries at most one entry per [write] call. *)
Theorem channel_life `{Limits} (cs : list Life.channel_call) (sock : Socket) (w : World) :
  exists s1 w1,
    Life.channel_run cs (SessionData.new (Some sock), w) = Done tt (s1, w1)
    /\ SessionData.socket s1 = Some sock
    /\ SessionData.wf s1
    /\ SessionData.timer s1 = QTimer.Stopped
    /\ (length (wire w1) <= length (wire w) + length (List.filter Life.is_write cs))%nat.
Proof. apply channel_run_steps; reflexivity. Qed.

(** X4.  A write deferred by a well-formed channel followed by
    [delayedWrite] puts exactly that payload on the wire, once, on the
    channel's socket; the timer is stopped, the payload stays in the
    buffer and the last-write time is the clock reading taken by
    [delayedWrite]. *)
Theorem deferred_payload_delivered `{Limits} (s : SessionData.t) (w : World) (sk : Socket)
        (src : list byte) :
  SessionData.socket s = Some sk ->
  SessionData.wf s ->
  SessionData.interval s <> -1 ->
  elapsed s w < SessionData.interval s ->
  exists s' w',
    (_ <- SessionData.write src ;; SessionData.delayedWrite)%cxx (s, w) = Done tt (s', w')
    /\ wire w' = wire w ++ [(sk, src)]
    /\ SessionData.buffer s' = Some src
    /\ SessionData.timer s' = QTimer.Stopped
    /\ (clock_reads w < clock_reads w')%nat
    /\ SessionData.lastWrite s' = clock w (Nat.pred (clock_reads w')).
Proof.
  intros Hsk Hwf Hi Hlt.
  destruct (write_deferred s w src Hi Hlt Hwf)
    as (s1 & w1 & Hrun & Hbuf & Hsz & _ & Hwire & _).
  pose proof (write_channel_frame s w src) as (Hs & _ & _).
  pose proof (write_clock_same s w src) as Hc.
  pose proof (write_clock_reads s w src) as Hreads.
  rewrite Hrun in Hs, Hc, Hreads. simpl in Hs, Hc, Hreads.
  unfold bind at 1. rewrite Hrun.
  unfold SessionData.delayedWrite. run. simpl.
  rewrite Hs, Hsk, Hbuf, Hsz. simpl.
  rewrite Nat2Z.id, firstn_all.
  do 2 eexists. split; [reflexivity|]. simpl.
  rewrite Hwire, Hc.
  repeat split; try reflexivity; try assumption; lia.
Qed.

Lemma deferred_payload_delivered_witness :
  (SessionData.socket Sample.paced = Some Sample.sock
   /\ SessionData.wf Sample.paced
   /\ SessionData.interval Sample.paced <> -1
   /\ elapsed (H := LP64) Sample.paced Sample.later < SessionData.interval Sample.paced)
  /\ exists s' w',
      (_ <- SessionData.write (H := LP64) Sample.pay2 ;; SessionData.delayedWrite)%cxx
        (Sample.paced, Sample.later)
      = Done tt (s', w')
      /\ wire w' = [(Sample.sock, Sample.pay2)]
      /\ SessionData.buffer s' = Some Sample.pay2
      /\ SessionData.timer s' = QTimer.Stopped
      /\ (1 < clock_reads w')%nat
      /\ SessionData.lastWrite s' = clock Sample.calm (Nat.pred (clock_reads w')).
Proof.
  assert (Hsk : SessionData.socket Sample.paced = Some Sample.sock) by reflexivity.
  assert (Hwf : SessionData.wf Sample.paced) by exact I.
  assert (Hi : SessionData.interval Sample.paced <> -1) by (vm_compute; discriminate).
  assert (Hlt : elapsed (H := LP64) Sample.paced Sample.later
                < SessionData.interval Sample.paced) by (vm_compute; reflexivity).
  split; [exact (conj Hsk (conj Hwf (conj Hi Hlt)))|].
  exact (deferred_payload_delivered (H := LP64) Sample.paced Sample.later Sample.sock
                                    Sample.pay2 Hsk Hwf Hi Hlt).
Defined.

(** X5.  Once a write has completed, and as long as the [long]
    arithmetic does not overflow, [sinceLastWrite] reads the clock once,
    leaves the channel alone and returns the whole seconds in
    milliseconds plus the microsecond difference divided by 1000 with
    truncation toward zero: a value less than one millisecond away from
    the true elapsed time, and never negative when the clock has not
    gone backwards. *)
Theorem sinceLastWrite_accuracy `{Limits} (s : SessionData.t) (w : World) :
  let last := SessionData.lastWrite s in
  let now := clock w (clock_reads w) in
  let dsec := tv_sec now - tv_sec last in
  let dusec := tv_usec now - tv_usec last in
  INT_MAX <= LONG_MAX ->
  tv_sec last <> 0 ->
  0 <= tv_usec last < 1000000 ->
  0 <= tv_usec now < 1000000 ->
  Z.abs dsec * 1000 + 1000 <= LONG_MAX ->
  SessionData.sinceLastWrite (s, w)
  = Done (dsec * 1000 + Z.quot dusec 1000) (s, tick w)
  /\ Z.abs (1000 * (dsec * 1000 + Z.quot dusec 1000) - (dsec * 1000000 + dusec)) < 1000
  /\ (0 <= dsec * 1000000 + dusec -> 0 <= dsec * 1000 + Z.quot dusec 1000).
Proof.
  intros last now dsec dusec Hlong Hnz Hul Hun Hbound.
  unfold INT_MAX in Hlong.
  assert (Hq : -1000 < Z.quot dusec 1000 < 1000
               /\ Z.abs (1000 * Z.quot dusec 1000 - dusec) < 1000
               /\ (0 <= dusec -> 0 <= Z.quot dusec 1000)
               /\ (dusec < 0 -> Z.quot dusec 1000 <= 0)).
  { assert (Hd : -1000000 < dusec < 1000000) by (subst dusec; lia).
    clearbody dusec. Z.to_euclidean_division_equations. lia. }
  destruct Hq as (Hq1 & Hq2 & Hq3 & Hq4).
  split; [|split].
  - unfold SessionData.sinceLastWrite. run.
    destruct (tv_sec (SessionData.lastWrite s) =? 0) eqn:E; [subst last; lia|].
    fold last now dsec dusec. unfold to_long.
    rewrite (wrap_small LONG_MAX dsec) by lia.
    rewrite (wrap_small LONG_MAX dusec) by (subst dusec; lia).
    rewrite (wrap_small LONG_MAX (dsec * 1000)) by lia.
    rewrite wrap_small by lia. reflexivity.
  - lia.
  - intros Hmono. destruct (Z_lt_le_dec dusec 0); [|lia].
    assert (1 <= dsec) by lia. lia.
Qed.

Lemma sinceLastWrite_accuracy_witness :
  (INT_MAX <= LONG_MAX (Limits := ILP32)
   /\ tv_sec (SessionData.lastWrite Sample.late_stamp) <> 0
   /\ 0 <= tv_usec (SessionData.lastWrite Sample.late_stamp) < 1000000
   /\ 0 <= tv_usec (clock Sample.later (clock_reads Sample.later)) < 1000000
   /\ Z.abs (tv_sec (clock Sample.later (clock_reads Sample.later))
             - tv_sec (SessionData.lastWrite Sample.late_stamp)) * 1000 + 1000
      <= LONG_MAX (Limits := ILP32))
  /\ SessionData.sinceLastWrite (H := ILP32) (Sample.late_stamp, Sample.later)
     = Done 51 (Sample.late_stamp, tick Sample.later).
Proof.
  assert (H1 : INT_MAX <= LONG_MAX (Limits := ILP32)) by (vm_compute; discriminate).
  assert (H2 : tv_sec (SessionData.lastWrite Sample.late_stamp) <> 0)
    by (vm_compute; discriminate).
  assert (H3 : 0 <= tv_usec (SessionData.lastWrite Sample.late_stamp) < 1000000)
    by (vm_compute; split; [discriminate | reflexivity]).
  assert (H4 : 0 <= tv_usec (clock Sample.later (clock_reads Sample.later)) < 1000000)
    by (vm_compute; split; [discriminate | reflexivity]).
  assert (H5 : Z.abs (tv_sec (clock Sample.later (clock_reads Sample.later))
                      - tv_sec (SessionData.lastWrite Sample.late_stamp)) * 1000 + 1000
               <= LONG_MAX (Limits := ILP32)) by (vm_compute; discriminate).
  split; [exact (conj H1 (conj H2 (conj H3 (conj H4 H5))))|].
  exact (proj1 (sinceLastWrite_accuracy (H := ILP32) Sample.late_stamp Sample.later
                                        H1 H2 H3 H4 H5)).
Defined.

(** ** SocketHandler, beyond the stated claims *)

(** [removeSession] on a registered session, step by step. *)
Lemma removeSession_run (h : SocketHandler.t) (w : World) (sessionId : Z)
      (sd : SessionData.t) :
  SocketHandler.m_idMap h !! sessionId = Some sd ->
  SocketHandler.removeSession sessionId (h, w)
  = Done true
      (match SessionData.socket sd with
       | Some sk =>
           SocketHandler.mk (SocketHandler.m_server h)
             (delete sessionId (SocketHandler.m_idMap h))
             (SocketHandler.m_tmpSocks h ++ [sk])
             (SocketHandler.unplug sk (SocketHandler.readyRead h))
             (SocketHandler.unplug sk (SocketHandler.disconnected h))
             (S (SocketHandler.killShots h))
       | None =>
           SocketHandler.with_idMap (delete sessionId (SocketHandler.m_idMap h)) h
       end, w).
Proof.
  intros Hreg. unfold SocketHandler.removeSession. run.
  rewrite bool_decide_eq_true_2 by (rewrite elem_of_keys, Hreg; eauto).
  simpl. unfold SocketHandler.through_find, SessionData.stealSocket. run.
  simpl. rewrite Hreg.
  destruct (SessionData.socket sd) as [sk|]; simpl;
    rewrite lookup_insert_eq, delete_insert_eq;
    unfold SocketHandler.delete_session, SessionData.destroy; run; simpl;
    destruct w; reflexivity.
Qed.

Lemma killSocket_run (h : SocketHandler.t) (w : World) :
  SocketHandler.killSocket (h, w)
  = match SocketHandler.m_tmpSocks h with
    | [] =>
        Done tt
          (h, logged (mkLog LogW
                        "[SocketHandler]: Ugly hack just went bad.. attempting to delete nonexisting pointer."
                        None) w)
    | sk :: rest =>
        let w1 := logged (mkLog LogT "[SocketHandler]: Deleting socket pointer:"
                                (Some (Z.pos sk))) w in
        if bool_decide (sk ∈ released w)
        then Crash DoubleDelete (SocketHandler.with_tmpSocks rest h, w1)
        else Done tt (SocketHandler.with_tmpSocks rest h, freed sk w1)
    end.
Proof.
  unfold SocketHandler.killSocket. run.
  destruct (SocketHandler.m_tmpSocks h) as [|sk rest]; [reflexivity|].
  simpl. destruct (bool_decide (sk ∈ released w)); reflexivity.
Qed.

(** X6.  [removeSession] on a registered session returns [true],
    removes that entry from the map and no other, and leaves the world
    as it was: the connection handle is not released but appended to
    the holding list, with one more [killSocket] shot pending and the
    socket's two signal connections dropped. *)
Theorem removeSession_registered (h : SocketHandler.t) (w : World) (sessionId : Z)
        (sd : SessionData.t) (sk : Socket) :
  SocketHandler.m_idMap h !! sessionId = Some sd ->
  SessionData.socket sd = Some sk ->
  exists h',
    SocketHandler.removeSession sessionId (h, w) = Done true (h', w)
    /\ SocketHandler.m_idMap h' !! sessionId = None
    /\ (forall k, k <> sessionId ->
           SocketHandler.m_idMap h' !! k = SocketHandler.m_idMap h !! k)
    /\ SocketHandler.m_tmpSocks h' = SocketHandler.m_tmpSocks h ++ [sk]
    /\ SocketHandler.killShots h' = S (SocketHandler.killShots h)
    /\ (sk ∉ SocketHandler.readyRead h')
    /\ (sk ∉ SocketHandler.disconnected h')
    /\ SocketHandler.m_server h' = SocketHandler.m_server h.
Proof.
  intros Hreg Hsk. rewrite (removeSession_run h w sessionId sd Hreg), Hsk.
  eexists. split; [reflexivity|]. simpl.
  split; [apply lookup_delete_eq|].
  split; [intros k Hk; now apply lookup_delete_ne|].
  repeat split; unfold SocketHandler.unplug; rewrite list_elem_of_filter; tauto.
Qed.

Lemma removeSession_registered_witness :
  (SocketHandler.m_idMap (Sample.one_session Sample.limited) !! 7 = Some Sample.limited
   /\ SessionData.socket Sample.limited = Some Sample.sock)
  /\ exists h',
      SocketHandler.removeSession 7 (Sample.one_session Sample.limited, Sample.calm)
      = Done true (h', Sample.calm)
      /\ SocketHandler.m_idMap h' !! 7 = None
      /\ SocketHandler.m_tmpSocks h' = [Sample.sock]
      /\ SocketHandler.killShots h' = 1%nat.
Proof.
  assert (Hreg : SocketHandler.m_idMap (Sample.one_session Sample.limited) !! 7
                 = Some Sample.limited) by reflexivity.
  assert (Hsk : SessionData.socket Sample.limited = Some Sample.sock) by reflexivity.
  split; [exact (conj Hreg Hsk)|].
  destruct (removeSession_registered (Sample.one_session Sample.limited) Sample.calm 7
                                     Sample.limited Sample.sock Hreg Hsk)
    as (h' & Hrun & Hgone & _ & Htmp & Hshots & _).
  exists h'. exact (conj Hrun (conj Hgone (conj Htmp Hshots))).
Defined.

(** X7.  [killSocket] releases the handle that has waited longest and
    only that one; with nothing waiting it logs and releases nothing;
    a head handle that has been released before is deleted a second
    time. *)
Theorem killSocket_releases_oldest (h : SocketHandler.t) (w : World) :
  let o := SocketHandler.killSocket (h, w) in
  match SocketHandler.m_tmpSocks h with
  | [] => returned o = Some tt /\ fst (final o) = h /\ released (snd (final o)) = released w
  | sk :: rest =>
      SocketHandler.m_tmpSocks (fst (final o)) = rest
      /\ SocketHandler.m_idMap (fst (final o)) = SocketHandler.m_idMap h
      /\ (sk ∉ released w ->
          returned o = Some tt /\ released (snd (final o)) = released w ++ [sk])
      /\ (sk ∈ released w -> exists st, o = Crash DoubleDelete st)
  end.
Proof.
  intros o. subst o. rewrite killSocket_run.
  destruct (SocketHandler.m_tmpSocks h) as [|sk rest]; [repeat split|].
  simpl. destruct (bool_decide_reflect (sk ∈ released w)) as [Hin|Hnin]; simpl;
    repeat split; try tauto; try (intros _; eauto).
Qed.

(** X8.  Two-phase teardown: removing a registered session whose
    handle is fresh, and then letting the pending [killSocket] shot
    fire, releases that handle exactly once; a further shot finds
    nothing to delete and only logs. *)
Theorem teardown_releases_once (h : SocketHandler.t) (w : World) (sessionId : Z)
        (sd : SessionData.t) (sk : Socket) :
  SocketHandler.m_idMap h !! sessionId = Some sd ->
  SessionData.socket sd = Some sk ->
  SocketHandler.m_tmpSocks h = [] ->
  sk ∉ released w ->
  exists h' w',
    (_ <- SocketHandler.removeSession sessionId ;;
     SocketHandler.killSocket ;; SocketHandler.killSocket)%cxx (h, w)
    = Done tt (h', w')
    /\ released w' = released w ++ [sk]
    /\ SocketHandler.m_tmpSocks h' = []
    /\ SocketHandler.m_idMap h' = delete sessionId (SocketHandler.m_idMap h)
    /\ wire w' = wire w.
Proof.
  intros Hreg Hsk Htmp Hfresh.
  unfold bind at 1. rewrite (removeSession_run h w sessionId sd Hreg), Hsk.
  unfold bind at 1. rewrite killSocket_run. simpl. rewrite Htmp. simpl.
  rewrite bool_decide_eq_false_2 by assumption.
  rewrite killSocket_run. simpl.
  do 2 eexists. split; [reflexivity|]. repeat split.
Qed.

Lemma teardown_releases_once_witness :
  (SocketHandler.m_idMap (Sample.one_session Sample.limited) !! 7 = Some Sample.limited
   /\ SessionData.socket Sample.limited = Some Sample.sock
   /\ SocketHandler.m_tmpSocks (Sample.one_session Sample.limited) = []
   /\ Sample.sock ∉ released Sample.calm)
  /\ exists h' w',
      (_ <- SocketHandler.removeSession 7 ;;
       SocketHandler.killSocket ;; SocketHandler.killSocket)%cxx
        (Sample.one_session Sample.limited, Sample.calm)
      = Done tt (h', w')
      /\ released w' = [Sample.sock]
      /\ SocketHandler.m_tmpSocks h' = [].
Proof.
  assert (Hreg : SocketHandler.m_idMap (Sample.one_session Sample.limited) !! 7
                 = Some Sample.limited) by reflexivity.
  assert (Hsk : SessionData.socket Sample.limited = Some Sample.sock) by reflexivity.
  assert (Htmp : SocketHandler.m_tmpSocks (Sample.one_session Sample.limited) = [])
    by reflexivity.
  assert (Hfresh : Sample.sock ∉ released Sample.calm) by (simpl; apply not_elem_of_nil).
  split; [exact (conj Hreg (conj Hsk (conj Htmp Hfresh)))|].
  destruct (teardown_releases_once (Sample.one_session Sample.limited) Sample.calm 7
                                   Sample.limited Sample.sock Hreg Hsk Htmp Hfresh)
    as (h' & w' & Hrun & Hrel & Hnil & _).
  exists h', w'. exact (conj Hrun (conj Hrel Hnil)).
Defined.

Lemma alter_absent (f : SessionData.t -> SessionData.t) (m : gmap Z SessionData.t)
      (k : Z) :
  m !! k = None -> alter f k m = m.
Proof.
  intros Hnone. apply map_eq. intros j. rewrite lookup_alter.
  destruct (decide (k = j)) as [->|Hne]; [now rewrite Hnone|reflexivity].
Qed.

Lemma setInterval_run (h : SocketHandler.t) (w : World) (sessionId value : Z) :
  SocketHandler.setInterval sessionId value (h, w)
  = Done tt
      (SocketHandler.with_idMap
         (alter (SessionData.with_interval value) sessionId (SocketHandler.m_idMap h)) h,
       w).
Proof.
  unfold SocketHandler.setInterval. run.
  destruct (SocketHandler.m_idMap h !! sessionId) as [sd|] eqn:Hl.
  - unfold SocketHandler.through_find, SessionData.setInterval. run. simpl.
    rewrite Hl. do 3 f_equal.
    apply map_eq. intros k. rewrite lookup_alter, lookup_insert.
    destruct (decide (sessionId = k)) as [->|Hne]; [now rewrite Hl|].
    reflexivity.
  - now rewrite alter_absent, with_idMap_same.
Qed.

(** X9.  [SocketHandler::setInterval] always returns and changes one
    thing at most: the interval of the channel registered under the
    identifier.  That channel's other fields, every other session, the
    rest of the multiplexer and the world stay as they were; for an
    unregistered identifier nothing changes at all. *)
Theorem setInterval_frame (h : SocketHandler.t) (w : World) (sessionId value : Z) :
  exists h',
    SocketHandler.setInterval sessionId value (h, w) = Done tt (h', w)
    /\ SocketHandler.m_idMap h' !! sessionId
       = SessionData.with_interval value <$> SocketHandler.m_idMap h !! sessionId
    /\ (forall k, k <> sessionId ->
           SocketHandler.m_idMap h' !! k = SocketHandler.m_idMap h !! k)
    /\ h' = SocketHandler.with_idMap (SocketHandler.m_idMap h') h
    /\ (SocketHandler.m_idMap h !! sessionId = None -> h' = h).
Proof.
  rewrite setInterval_run. eexists. split; [reflexivity|]. simpl.
  split; [apply lookup_alter_eq|].
  split; [intros k Hk; now apply lookup_alter_ne|].
  split; [reflexivity|].
  intros Hnone. now rewrite alter_absent, with_idMap_same.
Qed.

Lemma killSocket_releases_oldest_witness :
  (Sample.sock ∉ released Sample.calm)
  /\ returned (SocketHandler.killSocket
                 (SocketHandler.with_tmpSocks [Sample.sock; 6%positive] SocketHandler.new,
                  Sample.calm)) = Some tt
  /\ released (snd (final (SocketHandler.killSocket
                 (SocketHandler.with_tmpSocks [Sample.sock; 6%positive] SocketHandler.new,
                  Sample.calm)))) = [Sample.sock].
Proof.
  assert (Hfresh : Sample.sock ∉ released Sample.calm) by (simpl; apply not_elem_of_nil).
  split; [exact Hfresh|].
  exact (proj1 (proj2 (proj2
           (killSocket_releases_oldest
              (SocketHandler.with_tmpSocks [Sample.sock; 6%positive] SocketHandler.new)
              Sample.calm))) Hfresh).
Defined.

Lemma setInterval_frame_witness :
  SocketHandler.m_idMap SocketHandler.new !! 7 = None
  /\ exists h',
      SocketHandler.setInterval 7 200 (SocketHandler.new, Sample.calm)
      = Done tt (h', Sample.calm)
      /\ h' = SocketHandler.new.
Proof.
  assert (Hnone : SocketHandler.m_idMap SocketHandler.new !! 7 = None) by reflexivity.
  split; [exact Hnone|].
  destruct (setInterval_frame SocketHandler.new Sample.calm 7 200)
    as (h' & Hrun & _ & _ & _ & Hsame).
  exists h'. exact (conj Hrun (Hsame Hnone)).
Defined.

(** [socketReadable], step by step. *)
Lemma socketReadable_run (h : SocketHandler.t) (w : World) (sender : Socket)
      (avail : list byte) :
  SocketHandler.socketReadable sender avail (h, w)
  = let id := read_into_int (-1) avail in
    let h1 := SocketHandler.with_readyRead
                (SocketHandler.unplug sender (SocketHandler.readyRead h)) h in
    if 0 <=? id then
      Done tt
        (match SocketHandler.m_idMap h !! id with
         | Some _ => h1
         | None =>
             SocketHandler.with_idMap
               (<[id := SessionData.new (Some sender)]> (SocketHandler.m_idMap h)) h1
         end, w)
    else
      let w1 := logged (mkLog LogC
                          "[SocketHandler]: Failed to read valid session ID from client."
                          None) w in
      if qt_debug w then Crash AssertionFailed (h1, w1) else Done tt (h1, w1).
Proof.
  unfold SocketHandler.socketReadable, SocketHandler.Q_ASSERT. run.
  destruct (0 <=? read_into_int (-1) avail).
  - unfold SocketHandler.contains. simpl.
    destruct (SocketHandler.m_idMap h !! read_into_int (-1) avail) eqn:Hl.
    + rewrite bool_decide_eq_true_2 by eauto. reflexivity.
    + rewrite bool_decide_eq_false_2 by (intros [? ?]; discriminate). reflexivity.
  - simpl. destruct (qt_debug w); reflexivity.
Qed.

(** X10.  A handshake that yields a negative identifier registers
    nothing: the session map is unchanged, the condition is logged as
    critical, and the call crashes on its assertion exactly in a debug
    build. *)
Theorem handshake_rejects_negative (h : SocketHandler.t) (w : World) (sender : Socket)
        (avail : list byte) :
  read_into_int (-1) avail < 0 ->
  let o := SocketHandler.socketReadable sender avail (h, w) in
  SocketHandler.m_idMap (fst (final o)) = SocketHandler.m_idMap h
  /\ log (snd (final o))
     = log w ++ [mkLog LogC "[SocketHandler]: Failed to read valid session ID from client."
                       None]
  /\ wire (snd (final o)) = wire w
  /\ (if qt_debug w then o = Crash AssertionFailed (final o) else o = Done tt (final o)).
Proof.
  intros Hneg o. subst o. rewrite socketReadable_run. simpl.
  destruct (0 <=? read_into_int (-1) avail) eqn:E; [lia|].
  destruct (qt_debug w) eqn:Hd; simpl; rewrite ?Hd; repeat split.
Qed.

Lemma handshake_rejects_negative_witness :
  read_into_int (-1) [x07; x00] < 0
  /\ SocketHandler.socketReadable 9%positive [x07; x00]
       (Sample.one_session Sample.limited, Sample.calm)
     = Crash AssertionFailed
         (final (SocketHandler.socketReadable 9%positive [x07; x00]
                   (Sample.one_session Sample.limited, Sample.calm)))
  /\ SocketHandler.m_idMap
       (fst (final (SocketHandler.socketReadable 9%positive [x07; x00]
                      (Sample.one_session Sample.limited, Sample.calm))))
     = SocketHandler.m_idMap (Sample.one_session Sample.limited).
Proof.
  assert (Hneg : read_into_int (-1) [x07; x00] < 0) by (vm_compute; reflexivity).
  split; [exact Hneg|].
  destruct (handshake_rejects_negative (Sample.one_session Sample.limited) Sample.calm
                                       9%positive [x07; x00] Hneg)
    as (Hmap & _ & _ & Hcrash).
  exact (conj Hcrash Hmap).
Defined.

(** X11.  [socketReadable] uses up the [readyRead()] connection of the
    socket that signalled, whatever identifier it read and however the
    call ends; the connections of the other sockets stay. *)
Theorem handshake_is_one_shot (h : SocketHandler.t) (w : World) (sender : Socket)
        (avail : list byte) :
  let h' := fst (final (SocketHandler.socketReadable sender avail (h, w))) in
  (sender ∉ SocketHandler.readyRead h')
  /\ (forall sk, sk <> sender ->
         sk ∈ SocketHandler.readyRead h' <-> sk ∈ SocketHandler.readyRead h)
  /\ SocketHandler.disconnected h' = SocketHandler.disconnected h
  /\ SocketHandler.m_tmpSocks h' = SocketHandler.m_tmpSocks h.
Proof.
  intros h'. subst h'. rewrite socketReadable_run. simpl.
  destruct (0 <=? read_into_int (-1) avail);
    [destruct (SocketHandler.m_idMap h !! read_into_int (-1) avail)
    |destruct (qt_debug w)]; simpl;
    (split; [unfold SocketHandler.unplug; rewrite list_elem_of_filter; tauto|]);
    (split; [intros sk Hsk; unfold SocketHandler.unplug; rewrite list_elem_of_filter; tauto|]);
    split; reflexivity.
Qed.

Lemma byte_value_bounds (b : byte) : 0 <= Z.of_N (Byte.to_N b) <= 255.
Proof. pose proof (Byte.to_N_bounded b). lia. Qed.

(** X12.  A reply of fewer than four bytes never yields a session
    identifier: the bytes that did not arrive keep the sign byte of the
    initial -1, so the value read is negative. *)
Theorem short_reply_reads_negative (avail : list byte) :
  (length avail < 4)%nat -> read_into_int (-1) avail < 0.
Proof.
  intros Hlen.
  destruct avail as [|a [|b [|c [|d rest]]]]; simpl in Hlen; try lia;
    unfold read_into_int, memcpy, int_of_bytes; simpl;
    try pose proof (byte_value_bounds a);
    try pose proof (byte_value_bounds b);
    try pose proof (byte_value_bounds c);
    unfold to_int, wrap, INT_MAX;
    Z.to_euclidean_division_equations; lia.
Qed.

Lemma short_reply_reads_negative_witness :
  (length [x07; x00; x00] < 4)%nat /\ read_into_int (-1) [x07; x00; x00] < 0.
Proof.
  assert (Hlen : (length [x07; x00; x00] < 4)%nat) by (simpl; lia).
  split; [exact Hlen|].
  exact (short_reply_reads_negative [x07; x00; x00] Hlen).
Defined.

(** X13.  Every [int] survives the trip through its four bytes: what
    [read] stores from the bytes of [id], whatever follows them on the
    socket and whatever the variable held before, is [id]. *)
Theorem session_id_round_trip (init id : Z) (rest : list byte) :
  INT_MIN <= id <= INT_MAX -> read_into_int init (int_to_bytes id ++ rest) = id.
Proof.
  intros Hid. unfold read_into_int, memcpy, int_to_bytes, int_of_bytes.
  rewrite Z.min_l by (rewrite length_app; simpl; lia).
  change (Z.to_nat 4) with 4%nat. simpl.
  rewrite !byte_at_value.
  unfold to_int, wrap, INT_MIN, INT_MAX in *.
  change (256 ^ 0) with 1; change (256 ^ 1) with 256;
    change (256 ^ 2) with 65536; change (256 ^ 3) with 16777216.
  Z.to_euclidean_division_equations. lia.
Qed.

Lemma session_id_round_trip_witness :
  INT_MIN <= -2 <= INT_MAX
  /\ read_into_int 0 (int_to_bytes (-2) ++ [x2a]) = -2.
Proof.
  assert (Hid : INT_MIN <= -2 <= INT_MAX) by (vm_compute; split; discriminate).
  split; [exact Hid|].
  exact (session_id_round_trip 0 (-2) [x2a] Hid).
Defined.

(** [listen] when the first bind decides: it succeeds, or the name is
    no path. *)
Lemma listen_single_bind (h : SocketHandler.t) (w : World) (name : string) (fuel : nat) :
  QLocalServer.isListening (SocketHandler.m_server h) = false ->
  bind_ok w (length (syscalls w)) = true \/ SocketHandler.first_is_slash name = false ->
  (1 <= fuel)%nat ->
  SocketHandler.listen fuel name (h, w)
  = Done (Some (bind_ok w (length (syscalls w))))
      (SocketHandler.with_server
         (QLocalServer.mk (bind_ok w (length (syscalls w))) name) h,
       called (SysListen name) w).
Proof.
  intros Hl Hcase Hfuel. destruct fuel as [|fuel]; [lia|].
  unfold SocketHandler.listen. cbv [bind this fst]. rewrite Hl.
  cbn [SocketHandler.listen_loop]. cbv [bind].
  rewrite (server_listen_run h w name Hl).
  destruct Hcase as [Hok|Hslash].
  - rewrite Hok. reflexivity.
  - rewrite Hslash, andb_false_r. reflexivity.
Qed.

(** [listen] when the first bind fails on a path: unlink, then the
    second bind decides. *)
Lemma listen_retry (h : SocketHandler.t) (w : World) (name : string) (fuel : nat) :
  QLocalServer.isListening (SocketHandler.m_server h) = false ->
  bind_ok w (length (syscalls w)) = false ->
  SocketHandler.first_is_slash name = true ->
  (2 <= fuel)%nat ->
  SocketHandler.listen fuel name (h, w)
  = Done (Some (bind_ok w (length (syscalls w) + 2)))
      (SocketHandler.with_server
         (QLocalServer.mk (bind_ok w (length (syscalls w) + 2)) name) h,
       called (SysListen name)
         (logged (mkLog LogD
                    (if unlink_rc w (length (syscalls w) + 1) =? 0
                     then "[SocketHandler]: Unlinked stale socket"
                     else "QLocalServer::errorString()") None)
            (called (SysUnlink name) (called (SysListen name) w)))).
Proof.
  intros Hl Hfail Hslash Hfuel.
  destruct fuel as [|[|fuel]]; [lia|lia|].
  unfold SocketHandler.listen. cbv [bind this fst]. rewrite Hl.
  cbn [SocketHandler.listen_loop]. cbv [bind].
  rewrite (server_listen_run h w name Hl), Hfail, Hslash. cbn [negb andb].
  unfold SocketHandler.unlink. run. cbn [called syscalls bind_ok unlink_rc].
  rewrite length_app. cbn [length].
  set (h1 := SocketHandler.with_server (QLocalServer.mk false name) h).
  assert (Hl1 : QLocalServer.isListening (SocketHandler.m_server h1) = false)
    by reflexivity.
  destruct (unlink_rc w (length (syscalls w) + 1) =? 0);
    match goal with
    | |- context [SocketHandler.server_listen name (h1, ?w1)] =>
        rewrite (server_listen_run h1 w1 name Hl1)
    end;
    cbn [syscalls logged called bind_ok andb negb];
    rewrite !length_app; cbn [length];
    replace (length (syscalls w) + 1 + 1)%nat with (length (syscalls w) + 2)%nat by lia;
    destruct (bind_ok w (length (syscalls w) + 2)); reflexivity.
Qed.

(** X14.  [listen] on a server that is not listening issues a single
    bind and no unlink when that bind succeeds, and also when it fails
    on a name that does not start with a slash; the value returned is
    the outcome of that bind, which is also what the server reports
    afterwards. *)
Theorem listen_without_cleanup (h : SocketHandler.t) (w : World) (name : string)
        (fuel : nat) :
  QLocalServer.isListening (SocketHandler.m_server h) = false ->
  bind_ok w (length (syscalls w)) = true \/ SocketHandler.first_is_slash name = false ->
  (1 <= fuel)%nat ->
  exists h' w',
    SocketHandler.listen fuel name (h, w)
    = Done (Some (bind_ok w (length (syscalls w)))) (h', w')
    /\ syscalls w' = syscalls w ++ [SysListen name]
    /\ QLocalServer.isListening (SocketHandler.m_server h')
       = bind_ok w (length (syscalls w))
    /\ log w' = log w.
Proof.
  intros Hl Hcase Hfuel. rewrite (listen_single_bind h w name fuel Hl Hcase Hfuel).
  do 2 eexists. repeat split.
Qed.

Lemma listen_without_cleanup_witness :
  (QLocalServer.isListening (SocketHandler.m_server SocketHandler.new) = false
   /\ (bind_ok Sample.stale_endpoint (length (syscalls Sample.stale_endpoint)) = true
       \/ SocketHandler.first_is_slash "sensord" = false)
   /\ (1 <= 1)%nat)
  /\ exists h' w',
      SocketHandler.listen 1 "sensord" (SocketHandler.new, Sample.stale_endpoint)
      = Done (Some false) (h', w')
      /\ syscalls w' = [SysListen "sensord"]
      /\ QLocalServer.isListening (SocketHandler.m_server h') = false
      /\ log w' = [].
Proof.
  assert (Hl : QLocalServer.isListening (SocketHandler.m_server SocketHandler.new) = false)
    by reflexivity.
  assert (Hcase : bind_ok Sample.stale_endpoint (length (syscalls Sample.stale_endpoint))
                  = true
                  \/ SocketHandler.first_is_slash "sensord" = false)
    by (right; reflexivity).
  assert (Hfuel : (1 <= 1)%nat) by lia.
  split; [exact (conj Hl (conj Hcase Hfuel))|].
  exact (listen_without_cleanup SocketHandler.new Sample.stale_endpoint "sensord" 1
                                Hl Hcase Hfuel).
Defined.

(** X15.  The loop of [listen] always reaches its exit within two
    iterations.  The call returns a boolean, issues at most two binds
    and one unlink, touches neither the sessions nor the holding list
    nor the wire, and returns [true] only if the server is listening
    afterwards. *)
Theorem listen_terminates (h : SocketHandler.t) (w : World) (name : string) (fuel : nat) :
  (2 <= fuel)%nat ->
  exists b h' w',
    SocketHandler.listen fuel name (h, w) = Done (Some b) (h', w')
    /\ (b = true -> QLocalServer.isListening (SocketHandler.m_server h') = true)
    /\ SocketHandler.m_idMap h' = SocketHandler.m_idMap h
    /\ SocketHandler.m_tmpSocks h' = SocketHandler.m_tmpSocks h
    /\ wire w' = wire w
    /\ (exists calls, syscalls w' = syscalls w ++ calls
                      /\ (length (List.filter
                                    (fun c => match c with SysListen _ => true | _ => false end)
                                    calls) <= 2)%nat
                      /\ (length (List.filter
                                    (fun c => match c with SysUnlink _ => true | _ => false end)
                                    calls) <= 1)%nat).
Proof.
  intros Hfuel.
  destruct (QLocalServer.isListening (SocketHandler.m_server h)) eqn:Hl.
  - exists false, h, (logged (mkLog LogW "[SocketHandler]: Already listening" None) w).
    split; [unfold SocketHandler.listen; run; now rewrite Hl|].
    split; [discriminate|]. repeat split.
    exists []. rewrite app_nil_r. simpl. repeat split; lia.
  - destruct (bind_ok w (length (syscalls w))) eqn:Hb.
    + rewrite (listen_single_bind h w name fuel Hl) by (auto || lia). rewrite Hb.
      do 3 eexists. split; [reflexivity|]. repeat split.
      exists [SysListen name]. simpl. repeat split; lia.
    + destruct (SocketHandler.first_is_slash name) eqn:Hs.
      * rewrite (listen_retry h w name fuel Hl Hb Hs Hfuel).
        do 3 eexists. split; [reflexivity|].
        split; [intros ->; reflexivity|]. repeat split.
        exists [SysListen name; SysUnlink name; SysListen name]. simpl.
        rewrite <- !app_assoc. repeat split; lia.
      * rewrite (listen_single_bind h w name fuel Hl) by (auto || lia). rewrite Hb.
        do 3 eexists. split; [reflexivity|]. split; [discriminate|]. repeat split.
        exists [SysListen name]. simpl. repeat split; lia.
Qed.

Lemma listen_terminates_witness :
  (2 <= 2)%nat
  /\ exists b h' w',
      SocketHandler.listen 2 "/tmp/sensord.sock" (SocketHandler.new, Sample.stale_endpoint)
      = Done (Some b) (h', w')
      /\ SocketHandler.m_idMap h' = ∅.
Proof.
  assert (Hfuel : (2 <= 2)%nat) by lia.
  split; [exact Hfuel|].
  destruct (listen_terminates SocketHandler.new Sample.stale_endpoint "/tmp/sensord.sock" 2
                              Hfuel)
    as (b & h' & w' & Hrun & _ & Hmap & _).
  exists b, h', w'. exact (conj Hrun Hmap).
Defined.

Lemma accept_pending_run (pending : list Socket) (h : SocketHandler.t) (w : World) :
  SocketHandler.accept_pending pending (h, w)
  = Done tt
      (SocketHandler.mk (SocketHandler.m_server h) (SocketHandler.m_idMap h)
         (SocketHandler.m_tmpSocks h)
         (SocketHandler.readyRead h ++ pending)
         (SocketHandler.disconnected h ++ pending)
         (SocketHandler.killShots h),
       foldl (fun w' sk => sent sk SocketHandler.preamble w') w pending).
Proof.
  revert h w. induction pending as [|sk pending IH]; intros h w.
  - simpl. unfold ret. rewrite !app_nil_r. now destruct h.
  - cbn [SocketHandler.accept_pending]. run. rewrite IH. simpl.
    rewrite <- !app_assoc. reflexivity.
Qed.

Lemma wire_after_preambles (pending : list Socket) (w : World) :
  wire (foldl (fun w' sk => sent sk SocketHandler.preamble w') w pending)
  = wire w ++ map (fun sk => (sk, SocketHandler.preamble)) pending.
Proof.
  revert w. induction pending as [|sk pending IH]; intros w; simpl.
  - now rewrite app_nil_r.
  - rewrite IH. simpl. now rewrite <- app_assoc.
Qed.

Lemma clock_after_preambles (pending : list Socket) (w : World) :
  let w' := foldl (fun w' sk => sent sk SocketHandler.preamble w') w pending in
  clock w' = clock w /\ clock_reads w' = clock_reads w /\ transport w' = transport w
  /\ log w' = log w.
Proof.
  revert w. induction pending as [|sk pending IH]; intros w; simpl; [repeat split|].
  apply (IH (sent sk SocketHandler.preamble w)).
Qed.

(** X16.  [newConnection] always returns.  Each pending connection, in
    the order the server hands them out, gets both its signals connected
    and is sent the 16-byte preamble whose last byte is zero; nothing
    else goes on the wire, and no session is registered. *)
Theorem newConnection_sends_preamble (pending : list Socket) (h : SocketHandler.t)
        (w : World) :
  exists h' w',
    SocketHandler.newConnection pending (h, w) = Done tt (h', w')
    /\ wire w' = wire w ++ map (fun sk => (sk, SocketHandler.preamble)) pending
    /\ length SocketHandler.preamble = 16%nat
    /\ last SocketHandler.preamble = Some x00
    /\ SocketHandler.readyRead h' = SocketHandler.readyRead h ++ pending
    /\ SocketHandler.disconnected h' = SocketHandler.disconnected h ++ pending
    /\ SocketHandler.m_idMap h' = SocketHandler.m_idMap h
    /\ SocketHandler.m_tmpSocks h' = SocketHandler.m_tmpSocks h.
Proof.
  unfold SocketHandler.newConnection. run. rewrite accept_pending_run.
  do 2 eexists. split; [reflexivity|]. simpl.
  split; [now rewrite wire_after_preambles|]. repeat split.
Qed.

(** X17.  From connection to first sample.  On a new multiplexer, a
    connection is accepted, its client replies with the four bytes of a
    non-negative identifier, and a sample is written to that identifier:
    the write returns the transport's verdict on the sample, the wire
    carries the preamble and then the sample, both on that connection,
    and the channel registered under the identifier holds the connection
    with no interval set. *)
Theorem connect_identify_write `{Limits} (w : World) (sk : Socket) (id : Z)
        (src : list byte) :
  0 <= id <= INT_MAX ->
  exists h' w',
    (SocketHandler.newConnection [sk] ;;
     SocketHandler.socketReadable sk (int_to_bytes id) ;;
     SocketHandler.write id src)%cxx (SocketHandler.new, w)
    = Done (if transport w (S (length (wire w))) <? 0 then false else true) (h', w')
    /\ wire w' = wire w ++ [(sk, SocketHandler.preamble); (sk, src)]
    /\ SocketHandler.m_idMap h' !! id
       = Some (SessionData.with_lastWrite (clock w (clock_reads w))
                 (SessionData.new (Some sk)))
    /\ SocketHandler.readyRead h' = []
    /\ SocketHandler.disconnected h' = [sk].
Proof.
  intros Hid.
  assert (Hread : read_into_int (-1) (int_to_bytes id) = id).
  { rewrite <- (app_nil_r (int_to_bytes id)). apply read_into_int_reply. exact Hid. }
  unfold bind at 1. unfold SocketHandler.newConnection. run.
  rewrite accept_pending_run. cbn [foldl].
  rewrite socketReadable_run. cbn zeta. rewrite Hread.
  destruct (0 <=? id) eqn:E; [|lia].
  cbn [SocketHandler.m_idMap SocketHandler.new].
  rewrite lookup_empty.
  unfold SocketHandler.write. run.
  cbn [SocketHandler.m_idMap SocketHandler.with_idMap].
  rewrite lookup_insert_eq.
  unfold SocketHandler.through_find. cbn [fst snd SocketHandler.m_idMap SocketHandler.with_idMap].
  rewrite lookup_insert_eq.
  unfold SessionData.write. run. cbn.
  rewrite length_app, Nat.add_1_r.
  do 2 eexists. split; [reflexivity|]. cbn.
  rewrite lookup_insert_eq. rewrite decide_False by (intros Hne; now apply Hne).
  repeat split. now rewrite <- app_assoc.
Qed.

Lemma connect_identify_write_witness :
  0 <= 7 <= INT_MAX
  /\ exists h' w',
      (SocketHandler.newConnection [Sample.sock] ;;
       SocketHandler.socketReadable Sample.sock (int_to_bytes 7) ;;
       SocketHandler.write (H := LP64) 7 Sample.pay1)%cxx (SocketHandler.new, Sample.calm)
      = Done true (h', w')
      /\ wire w' = [(Sample.sock, SocketHandler.preamble); (Sample.sock, Sample.pay1)].
Proof.
  assert (Hid : 0 <= 7 <= INT_MAX) by (vm_compute; split; discriminate).
  split; [exact Hid|].
  destruct (connect_identify_write (H := LP64) Sample.calm Sample.sock 7 Sample.pay1 Hid)
    as (h' & w' & Hrun & Hwire & _).
  exists h', w'. exact (conj Hrun Hwire).
Defined.

Lemma entries_lookup (m : gmap Z SessionData.t) (k : Z) (sd : SessionData.t) :
  (k, sd) ∈ SocketHandler.entries m <-> m !! k = Some sd.
Proof.
  unfold SocketHandler.entries.
  rewrite (merge_sort_Permutation SocketHandler.key_le (map_to_list m)).
  apply elem_of_map_to_list.
Qed.

#[local] Instance key_le_total : Total SocketHandler.key_le.
Proof. intros a b. unfold SocketHandler.key_le. lia. Qed.

#[local] Instance key_le_trans : Transitive SocketHandler.key_le.
Proof. intros a b c. unfold SocketHandler.key_le. lia. Qed.

Lemma entries_sorted (m : gmap Z SessionData.t) :
  StronglySorted SocketHandler.key_le (SocketHandler.entries m).
Proof. apply StronglySorted_merge_sort; apply _. Qed.

(** The scan ends on its initial value or on the key of an entry that
    holds the socket. *)
Lemma owner_scan_result (sk : Socket) (l : list (Z * SessionData.t)) (init : Z) :
  SocketHandler.owner_scan sk init l = init
  \/ exists kv, kv ∈ l /\ SessionData.socket kv.2 = Some sk
                /\ SocketHandler.owner_scan sk init l = kv.1.
Proof.
  revert init. induction l as [|x l IH]; intros init; [now left|].
  unfold SocketHandler.owner_scan. cbn [foldl].
  fold (SocketHandler.owner_scan sk
          (if bool_decide (SessionData.socket x.2 = Some sk) then x.1 else init) l).
  destruct (bool_decide_reflect (SessionData.socket x.2 = Some sk)) as [Hx|Hx].
  - destruct (IH x.1) as [Heq|(kv & Hin & Hsk & Heq)].
    + right. exists x. split; [left|]. auto.
    + right. exists kv. split; [now right|]. auto.
  - destruct (IH init) as [Heq|(kv & Hin & Hsk & Heq)]; [now left|].
    right. exists kv. split; [now right|]. auto.
Qed.

Lemma owner_scan_no_owner (sk : Socket) (l : list (Z * SessionData.t)) (init : Z) :
  (forall kv, kv ∈ l -> SessionData.socket kv.2 <> Some sk) ->
  SocketHandler.owner_scan sk init l = init.
Proof.
  intros Hnone. destruct (owner_scan_result sk l init) as [Heq|(kv & Hin & Hsk & _)];
    [exact Heq|]. now destruct (Hnone kv Hin).
Qed.

(** Over entries in ascending order the scan ends on the greatest key
    that holds the socket. *)
Lemma owner_scan_greatest (sk : Socket) (l : list (Z * SessionData.t)) (init : Z) :
  StronglySorted SocketHandler.key_le l ->
  forall kv, kv ∈ l -> SessionData.socket kv.2 = Some sk ->
             exists kv', kv' ∈ l /\ SessionData.socket kv'.2 = Some sk
                         /\ SocketHandler.owner_scan sk init l = kv'.1
                         /\ kv.1 <= kv'.1.
Proof.
  intros Hsorted. revert init. induction Hsorted as [|x l Hl IH Hx]; intros init kv Hin Hsk.
  - now apply elem_of_nil in Hin.
  - unfold SocketHandler.owner_scan. cbn [foldl].
    fold (SocketHandler.owner_scan sk
            (if bool_decide (SessionData.socket x.2 = Some sk) then x.1 else init) l).
    apply elem_of_cons in Hin. destruct Hin as [->|Hin].
    + rewrite bool_decide_eq_true_2 by exact Hsk.
      destruct (owner_scan_result sk l x.1) as [Heq|(kv' & Hin' & Hsk' & Heq)].
      * exists x. split; [left|]. split; [exact Hsk|]. split; [exact Heq|lia].
      * exists kv'. split; [now right|]. split; [exact Hsk'|]. split; [exact Heq|].
        rewrite Forall_forall in Hx. exact (Hx kv' Hin').
    + destruct (IH (if bool_decide (SessionData.socket x.2 = Some sk) then x.1 else init)
                   kv Hin Hsk) as (kv' & Hin' & Hsk' & Heq & Hle).
      exists kv'. split; [now right|]. auto.
Qed.

(** X18.  [socketDisconnected] changes nothing in the multiplexer.
    With no key -1 in the map: when no registered channel holds the
    socket that signalled, it logs a warning and emits nothing; when
    some do, it emits [lostSession] for the greatest identifier among
    them and logs nothing. *)
Theorem socketDisconnected_reports_owner (h : SocketHandler.t) (w : World)
        (sender : Socket) :
  (forall id, is_Some (SocketHandler.m_idMap h !! id) -> id <> -1) ->
  let o := SocketHandler.socketDisconnected sender (h, w) in
  ((forall id sd, SocketHandler.m_idMap h !! id = Some sd ->
                  SessionData.socket sd <> Some sender) ->
   o = Done None
         (h, logged (mkLog LogW
                       "[SocketHandler]: Noticed lost session, but can't find it." None) w))
  /\ (forall id sd,
         SocketHandler.m_idMap h !! id = Some sd ->
         SessionData.socket sd = Some sender ->
         exists id' sd',
           o = Done (Some id') (h, w)
           /\ SocketHandler.m_idMap h !! id' = Some sd'
           /\ SessionData.socket sd' = Some sender
           /\ id <= id').
Proof.
  intros Hkeys o. subst o. unfold SocketHandler.socketDisconnected. run. split.
  - intros Hnone. rewrite owner_scan_no_owner; [reflexivity|].
    intros [k sd] Hin. apply entries_lookup in Hin. exact (Hnone k sd Hin).
  - intros id sd Hreg Hsk.
    destruct (owner_scan_greatest sender (SocketHandler.entries (SocketHandler.m_idMap h))
                (-1) (entries_sorted _) (id, sd))
      as ([id' sd'] & Hin' & Hsk' & Heq & Hle); [now apply entries_lookup|exact Hsk|].
    apply entries_lookup in Hin'. simpl in Hsk', Heq, Hle.
    exists id', sd'. rewrite Heq.
    assert (Hne : id' <> -1) by (apply Hkeys; rewrite Hin'; eauto).
    destruct (id' =? -1) eqn:E; [lia|]. auto.
Qed.

Lemma socketDisconnected_reports_owner_witness :
  (forall id, is_Some (SocketHandler.m_idMap (Sample.one_session Sample.limited) !! id) ->
              id <> -1)
  /\ SocketHandler.m_idMap (Sample.one_session Sample.limited) !! 7 = Some Sample.limited
  /\ SessionData.socket Sample.limited = Some Sample.sock
  /\ exists id' sd',
      SocketHandler.socketDisconnected Sample.sock
        (Sample.one_session Sample.limited, Sample.calm)
      = Done (Some id') (Sample.one_session Sample.limited, Sample.calm)
      /\ SocketHandler.m_idMap (Sample.one_session Sample.limited) !! id' = Some sd'
      /\ SessionData.socket sd' = Some Sample.sock
      /\ 7 <= id'.
Proof.
  assert (Hkeys : forall id,
             is_Some (SocketHandler.m_idMap (Sample.one_session Sample.limited) !! id) ->
             id <> -1).
  { intros id [sd Hsd] ->. vm_compute in Hsd. discriminate. }
  assert (Hreg : SocketHandler.m_idMap (Sample.one_session Sample.limited) !! 7
                 = Some Sample.limited) by reflexivity.
  assert (Hsk : SessionData.socket Sample.limited = Some Sample.sock) by reflexivity.
  split; [exact Hkeys|]. split; [exact Hreg|]. split; [exact Hsk|].
  exact (proj2 (socketDisconnected_reports_owner (Sample.one_session Sample.limited)
                  Sample.calm Sample.sock Hkeys) 7 Sample.limited Hreg Hsk).
Defined.

(** [SessionData::write] releases no handle and issues no system call. *)
Lemma write_world_frame `{Limits} (s : SessionData.t) (w : World) (src : list byte) :
  released (snd (final (SessionData.write src (s, w)))) = released w
  /\ syscalls (snd (final (SessionData.write src (s, w)))) = syscalls w.
Proof.
  unfold SessionData.write. run.
  destruct (SessionData.interval s =? -1).
  - destruct (SessionData.socket s); split; reflexivity.
  - rewrite sinceLastWrite_run.
    destruct (elapsed s w >=? SessionData.interval s).
    + destruct (SessionData.socket s); destruct (tv_sec (SessionData.lastWrite s) =? 0);
        split; reflexivity.
    + destruct s as [so iv bf sz lw tm]; simpl.
      destruct bf as [b|]; simpl;
        [destruct (Z.of_nat (length src) =? sz); simpl|];
        destruct tm; simpl; destruct (tv_sec lw =? 0); split; reflexivity.
Qed.

(** Where [SocketHandler::write] ends, in terms of the channel's write. *)
Lemma handler_write_final `{Limits} (h : SocketHandler.t) (w : World) (id : Z)
      (src : list byte) :
  final (SocketHandler.write id src (h, w))
  = match SocketHandler.m_idMap h !! id with
    | None =>
        (h, logged (mkLog LogD
                      "[SocketHandler]: Trying to write to nonexistent session (normal, no panic)."
                      None) w)
    | Some sd =>
        let o := SessionData.write src
                   (sd, logged (mkLog LogT "[SocketHandler]: Writing to session " (Some id))
                               w) in
        (SocketHandler.with_idMap (<[id := fst (final o)]> (SocketHandler.m_idMap h)) h,
         snd (final o))
    end.
Proof.
  unfold SocketHandler.write. run.
  destruct (SocketHandler.m_idMap h !! id) as [sd|] eqn:Hl; [|reflexivity].
  unfold SocketHandler.through_find. simpl. rewrite Hl. unfold logged at 1 2. simpl.
  destruct (SessionData.write src _) as [a [sd' w']|e [sd' w']]; reflexivity.
Qed.

(** X19.  [SocketHandler::write] touches one channel at most.  However
    the call ends, every session other than the addressed one is as
    before, the set of registered identifiers is the same, the rest of
    the multiplexer is untouched, no handle is released and no system
    call is made. *)
Theorem write_frame `{Limits} (h : SocketHandler.t) (w : World) (id : Z) (src : list byte) :
  let st := final (SocketHandler.write id src (h, w)) in
  (forall k, k <> id ->
      SocketHandler.m_idMap (fst st) !! k = SocketHandler.m_idMap h !! k)
  /\ dom (SocketHandler.m_idMap (fst st)) = dom (SocketHandler.m_idMap h)
  /\ fst st = SocketHandler.with_idMap (SocketHandler.m_idMap (fst st)) h
  /\ released (snd st) = released w
  /\ syscalls (snd st) = syscalls w.
Proof.
  intros st. subst st. rewrite handler_write_final.
  destruct (SocketHandler.m_idMap h !! id) as [sd|] eqn:Hl; simpl.
  - pose proof (write_world_frame sd
                  (logged (mkLog LogT "[SocketHandler]: Writing to session " (Some id)) w)
                  src) as [Hrel Hsys].
    split; [intros k Hk; now apply lookup_insert_ne|].
    split; [apply dom_insert_lookup_L; eauto|].
    split; [reflexivity|]. split; assumption.
  - split; [reflexivity|]. split; [reflexivity|].
    split; [now rewrite with_idMap_same|]. split; reflexivity.
Qed.






(** X21.  The destructor of a channel releases the connection handle
    the channel still holds, once; after [stealSocket] has handed the
    handle out it releases nothing, and it never writes. *)
Theorem destructor_releases_unless_stolen (s : SessionData.t) (w : World) (sk : Socket) :
  SessionData.socket s = Some sk ->
  sk ∉ released w ->
  (exists s', SessionData.destroy (s, w) = Done tt (s', freed sk w))
  /\ (exists s',
         (stolen <- SessionData.stealSocket ;; SessionData.destroy ;; ret stolen)%cxx (s, w)
         = Done (Some sk) (s', w)).
Proof.
  intros Hsk Hfresh. split.
  - unfold SessionData.destroy. run. simpl. rewrite Hsk. simpl.
    rewrite bool_decide_eq_false_2 by exact Hfresh. eauto.
  - unfold SessionData.stealSocket, SessionData.destroy. run. simpl. rewrite Hsk.
    destruct w. eauto.
Qed.

Lemma destructor_releases_unless_stolen_witness :
  (SessionData.socket Sample.armed = Some Sample.sock /\ Sample.sock ∉ released Sample.calm)
  /\ (exists s', SessionData.destroy (Sample.armed, Sample.calm)
                 = Done tt (s', freed Sample.sock Sample.calm))
  /\ (exists s',
         (stolen <- SessionData.stealSocket ;; SessionData.destroy ;; ret stolen)%cxx
           (Sample.armed, Sample.calm)
         = Done (Some Sample.sock) (s', Sample.calm)).
Proof.
  assert (Hsk : SessionData.socket Sample.armed = Some Sample.sock) by reflexivity.
  assert (Hfresh : Sample.sock ∉ released Sample.calm) by (simpl; apply not_elem_of_nil).
  split; [exact (conj Hsk Hfresh)|].
  exact (destructor_releases_unless_stolen Sample.armed Sample.calm Sample.sock Hsk Hfresh).
Defined.

(** X22.  After [clearInterval] a session cannot be removed any more:
    for every identifier, registered or not, [removeSession] right after
    [clearInterval] finds no entry and dereferences the end iterator. *)
Theorem remove_after_clearInterval_crashes (h : SocketHandler.t) (w : World)
        (sessionId : Z) :
  (SocketHandler.clearInterval sessionId ;; SocketHandler.removeSession sessionId)%cxx (h, w)
  = Crash EndIteratorDereference
      (SocketHandler.with_idMap (delete sessionId (SocketHandler.m_idMap h)) h,
       logged (mkLog LogD "[SocketHandler]: Trying to remove nonexistent session." None) w).
Proof.
  unfold bind. rewrite clearInterval_run.
  apply removeSession_unknown. simpl. apply lookup_delete_eq.
Qed.

Lemma write_unlimited_run `{Limits} (s : SessionData.t) (w : World) (sk : Socket)
      (src : list byte) :
  SessionData.interval s = -1 ->
  SessionData.socket s = Some sk ->
  SessionData.write src (s, w)
  = Done (if transport w (length (wire w)) <? 0 then false else true)
      (SessionData.with_lastWrite (clock w (clock_reads w)) s,
       sent sk src
         (tick (logged (mkLog LogT "[SocketHandler]: pass-through. interval not set" None)
                       w))).
Proof.
  intros Hi Hsk. unfold SessionData.write. run. now rewrite Hi, Hsk.
Qed.

(** X23.  [setInterval] with -1 switches the rate limit of a registered
    channel off: the next write to the session is handed to the socket
    at once, whatever interval was set and however recent the last
    write, and returns the transport's verdict. *)
Theorem setInterval_minus_one_unlimits `{Limits} (h : SocketHandler.t) (w : World)
        (id : Z) (sd : SessionData.t) (sk : Socket) (src : list byte) :
  SocketHandler.m_idMap h !! id = Some sd ->
  SessionData.socket sd = Some sk ->
  exists h' w',
    (SocketHandler.setInterval id (-1) ;; SocketHandler.write id src)%cxx (h, w)
    = Done (if transport w (length (wire w)) <? 0 then false else true) (h', w')
    /\ wire w' = wire w ++ [(sk, src)]
    /\ SocketHandler.m_idMap h' !! id
       = Some (SessionData.with_lastWrite (clock w (clock_reads w))
                 (SessionData.with_interval (-1) sd)).
Proof.
  intros Hreg Hsk. unfold bind at 1. rewrite setInterval_run.
  unfold SocketHandler.write. run. simpl. rewrite lookup_alter_eq, Hreg. simpl.
  unfold SocketHandler.through_find. simpl. rewrite lookup_alter_eq, Hreg. simpl.
  rewrite (write_unlimited_run (SessionData.with_interval (-1) sd) _ sk src)
    by (reflexivity || exact Hsk).
  simpl. do 2 eexists. split; [reflexivity|]. simpl.
  split; [reflexivity|apply lookup_insert_eq].
Qed.

Lemma setInterval_minus_one_unlimits_witness :
  (SocketHandler.m_idMap (Sample.one_session Sample.paced) !! 7 = Some Sample.paced
   /\ SessionData.socket Sample.paced = Some Sample.sock)
  /\ exists h' w',
      (SocketHandler.setInterval 7 (-1) ;;
       SocketHandler.write (H := LP64) 7 Sample.pay2)%cxx
        (Sample.one_session Sample.paced, Sample.later)
      = Done true (h', w')
      /\ wire w' = [(Sample.sock, Sample.pay2)].
Proof.
  assert (Hreg : SocketHandler.m_idMap (Sample.one_session Sample.paced) !! 7
                 = Some Sample.paced) by reflexivity.
  assert (Hsk : SessionData.socket Sample.paced = Some Sample.sock) by reflexivity.
  split; [exact (conj Hreg Hsk)|].
  destruct (setInterval_minus_one_unlimits (H := LP64) (Sample.one_session Sample.paced)
              Sample.later 7 Sample.paced Sample.sock Sample.pay2 Hreg Hsk)
    as (h' & w' & Hrun & Hwire & _).
  exists h', w'. exact (conj Hrun Hwire).
Defined.

(** X24.  Once a session is removed, the disconnect of its socket is
    not reported: when no other registered channel holds the socket,
    [socketDisconnected] after [removeSession] emits nothing and logs
    that the session cannot be found. *)
Theorem removed_session_not_reported (h : SocketHandler.t) (w : World) (id : Z)
        (sd : SessionData.t) (sk : Socket) :
  SocketHandler.m_idMap h !! id = Some sd ->
  SessionData.socket sd = Some sk ->
  (forall id' sd', id' <> id -> SocketHandler.m_idMap h !! id' = Some sd' ->
                   SessionData.socket sd' <> Some sk) ->
  exists h',
    (SocketHandler.removeSession id ;; SocketHandler.socketDisconnected sk)%cxx (h, w)
    = Done None
        (h', logged (mkLog LogW
                       "[SocketHandler]: Noticed lost session, but can't find it." None) w)
    /\ SocketHandler.m_idMap h' = delete id (SocketHandler.m_idMap h).
Proof.
  intros Hreg Hsk Hothers. unfold bind at 1.
  rewrite (removeSession_run h w id sd Hreg), Hsk.
  unfold SocketHandler.socketDisconnected. run. simpl.
  rewrite owner_scan_no_owner.
  - simpl. eexists. split; reflexivity.
  - intros [k sd'] Hin. apply entries_lookup in Hin. simpl.
    destruct (decide (k = id)) as [->|Hne].
    + rewrite lookup_delete_eq in Hin. discriminate.
    + rewrite lookup_delete_ne in Hin by congruence. exact (Hothers k sd' Hne Hin).
Qed.

Lemma removed_session_not_reported_witness :
  (SocketHandler.m_idMap (Sample.one_session Sample.limited) !! 7 = Some Sample.limited
   /\ SessionData.socket Sample.limited = Some Sample.sock
   /\ (forall id' sd', id' <> 7 ->
          SocketHandler.m_idMap (Sample.one_session Sample.limited) !! id' = Some sd' ->
          SessionData.socket sd' <> Some Sample.sock))
  /\ exists h',
      (SocketHandler.removeSession 7 ;; SocketHandler.socketDisconnected Sample.sock)%cxx
        (Sample.one_session Sample.limited, Sample.calm)
      = Done None
          (h', logged (mkLog LogW
                         "[SocketHandler]: Noticed lost session, but can't find it." None)
                      Sample.calm)
      /\ SocketHandler.m_idMap h' = delete 7 (SocketHandler.m_idMap
                                                 (Sample.one_session Sample.limited)).
Proof.
  assert (Hreg : SocketHandler.m_idMap (Sample.one_session Sample.limited) !! 7
                 = Some Sample.limited) by reflexivity.
  assert (Hsk : SessionData.socket Sample.limited = Some Sample.sock) by reflexivity.
  assert (Hothers : forall id' sd', id' <> 7 ->
             SocketHandler.m_idMap (Sample.one_session Sample.limited) !! id' = Some sd' ->
             SessionData.socket sd' <> Some Sample.sock).
  { intros id' sd' Hne Hl. unfold Sample.one_session in Hl. simpl in Hl.
    rewrite lookup_insert_ne in Hl by congruence. rewrite lookup_empty in Hl.
    discriminate. }
  split; [exact (conj Hreg (conj Hsk Hothers))|].
  exact (removed_session_not_reported (Sample.one_session Sample.limited) Sample.calm 7
                                      Sample.limited Sample.sock Hreg Hsk Hothers).
Defined.
